(** * GARCH analysis service: a shallow embedding of [services/garch/main.py]

    The service fits a GARCH model to a series of levels, scores a new
    observation against the fitted conditional volatility and forecasts
    volatility.  This file embeds the module function by function and
    proves what the endpoints and the engine do.

    Modelling conventions.
    - Python floats are idealised as real numbers ([R]); [np.log] is [ln],
      [np.sqrt] is [sqrt].  The one non-finite value the module builds on
      purpose, [float("inf")] for the half-life, has its own constructor.
      The z-scores are quotients whose divisor can be zero (a zero
      volatility, a zero deviation): numpy divides without raising and
      yields an infinity or nan, so the score arithmetic is carried out on
      [pyfloat], reals extended with these values.
    - Exceptions are threaded through an error monad ([result]); a
      [try ... except Exception] is a [match] on the outcome.
    - What the module imports and does not define (the [arch] estimator and
      forecaster, [scipy.stats.t.ppf], the builtin [float] on strings, and
      the [:.Nf] format of a float) is an interface, [Backend]; the
      theorems hold for all its implementations, and a sample implementation
      runs the module on concrete requests.
    - Logging has no effect on any returned value and is left out. *)

From Stdlib Require Import Reals Lra Lia ZArith Ascii String.
From stdpp Require Import gmap strings list pretty.

Local Open Scope R_scope.

(** ** Exceptions and the error monad *)

(** [ValueError] stands for the two [raise ValueError(...)] statements of the
    module itself; an exception leaving a library call is an
    [ExternalError], whatever its Python class. *)
Inductive exn : Type :=
| ValueError (msg : string)
| IndexError (msg : string)
| ExternalError (msg : string).

(** [str(e)] *)
Definition str (e : exn) : string :=
  match e with
  | ValueError m | IndexError m | ExternalError m => m
  end.

(** The data-sufficiency failures are exactly the module's own
    [ValueError]s. *)
Definition is_insufficient_data (e : exn) : bool :=
  match e with
  | ValueError _ => true
  | _ => false
  end.

Definition result (A : Type) : Type := (exn + A)%type.

Definition ret {A : Type} (a : A) : result A := inr a.

Definition raise {A : Type} (e : exn) : result A := inl e.

Definition bind {A B : Type} (m : result A) (k : A -> result B) : result B :=
  match m with
  | inl e => inl e
  | inr a => k a
  end.

Notation "x <- m ;; k" := (bind m (fun x => k))
  (at level 100, m at next level, right associativity).

(** The outcome of a call into a library: its value, or the message of the
    exception it raised. *)
Definition external (A : Type) : Type := (string + A)%type.

Definition call {A : Type} (x : external A) : result A :=
  match x with
  | inl msg => raise (ExternalError msg)
  | inr a => ret a
  end.

Fixpoint mapM {A B : Type} (f : A -> result B) (l : list A) : result (list B) :=
  match l with
  | [] => ret []
  | a :: l' => b <- f a ;; bs <- mapM f l' ;; ret (b :: bs)
  end.

(** ** Comparisons used as conditions *)

#[global] Instance Rlt_decision (x y : R) : Decision (x < y) := Rlt_dec x y.
#[global] Instance Rgt_decision (x y : R) : Decision (x > y) := Rgt_dec x y.
#[global] Instance Req_decision (x y : R) : Decision (x = y) := Req_dec_T x y.

(** ** Floats with infinities and nan *)

Inductive pyfloat : Type :=
| Num (r : R)
| PosInf
| NegInf
| NaN.

(** [x / y] on numpy floats: a zero divisor gives an infinity of the sign of
    the dividend, and nan for [0 / 0]. *)
Definition fdiv (x y : pyfloat) : pyfloat :=
  match x, y with
  | NaN, _ | _, NaN => NaN
  | Num a, Num b =>
      if decide (b = 0) then
        if decide (a = 0) then NaN
        else if decide (0 < a) then PosInf else NegInf
      else Num (a / b)
  | Num _, PosInf | Num _, NegInf => Num 0
  | PosInf, Num b => if decide (b < 0) then NegInf else PosInf
  | NegInf, Num b => if decide (b < 0) then PosInf else NegInf
  | PosInf, PosInf | PosInf, NegInf | NegInf, PosInf | NegInf, NegInf => NaN
  end.

(** [x * y] *)
Definition fmul (x y : pyfloat) : pyfloat :=
  match x, y with
  | NaN, _ | _, NaN => NaN
  | Num a, Num b => Num (a * b)
  | PosInf, Num b | Num b, PosInf =>
      if decide (b = 0) then NaN
      else if decide (0 < b) then PosInf else NegInf
  | NegInf, Num b | Num b, NegInf =>
      if decide (b = 0) then NaN
      else if decide (0 < b) then NegInf else PosInf
  | PosInf, PosInf | NegInf, NegInf => PosInf
  | PosInf, NegInf | NegInf, PosInf => NegInf
  end.

(** [abs(x)] *)
Definition fabs (x : pyfloat) : pyfloat :=
  match x with
  | Num a => Num (Rabs a)
  | PosInf | NegInf => PosInf
  | NaN => NaN
  end.

(** [x < y]: false as soon as one side is nan. *)
Definition flt (x y : pyfloat) : Prop :=
  match x, y with
  | NaN, _ | _, NaN => False
  | Num a, Num b => a < b
  | Num _, PosInf => True
  | Num _, NegInf => False
  | PosInf, _ => False
  | NegInf, NegInf => False
  | NegInf, _ => True
  end.

(** [x > y] *)
Definition fgt (x y : pyfloat) : Prop := flt y x.


#[global] Instance flt_decision (x y : pyfloat) : Decision (flt x y).
Proof. destruct x, y; simpl; apply _. Defined.

#[global] Instance fgt_decision (x y : pyfloat) : Decision (fgt x y).
Proof. unfold fgt. apply _. Defined.

(** ** Sequences: Python indexing and the numpy operations the module uses *)

(** The message of numpy's [IndexError].  Every index that can fail in the
    module is into a numpy array: the two Python lists it indexes
    ([result["conditional_volatility"]] after a successful fit, [vals] after
    [split]) are never empty. *)
Definition out_of_bounds (i : string) (size : nat) : exn :=
  IndexError ("index " +:+ i +:+ " is out of bounds for axis 0 with size "
              +:+ pretty size).

(** [a[-k]] for [k >= 1]: the k-th element from the end, [IndexError] when
    the sequence is shorter than [k]. *)
Definition neg_index {A : Type} (a : list A) (k : nat) : result A :=
  if (length a <? k)%nat
  then raise (out_of_bounds ("-" +:+ pretty k) (length a))
  else match a !! (length a - k)%nat with
       | Some x => ret x
       | None => raise (out_of_bounds ("-" +:+ pretty k) (length a))
       end.

(** [a[i]] for [i >= 0]. *)
Definition index {A : Type} (a : list A) (i : nat) : result A :=
  match a !! i with
  | Some x => ret x
  | None => raise (out_of_bounds (pretty i) (length a))
  end.

(** [np.log(a)] *)
Definition np_log (a : list R) : list R := map ln a.

(** [np.diff(a)], that is [a[1:] - a[:-1]]. *)
Definition np_diff (a : list R) : list R :=
  zip_with Rminus (drop 1 a) (take (length a - 1) a).

(** [k * a] for a scalar [k] and an array [a]. *)
Definition np_scale (k : R) (a : list R) : list R := map (Rmult k) a.

(** [np.sqrt(a)] *)
Definition np_sqrt (a : list R) : list R := map sqrt a.

Definition np_sum (a : list R) : R := foldr Rplus 0 a.

(** [np.mean(a)] *)
Definition np_mean (a : list R) : R := np_sum a / INR (length a).

(** [np.std(a)]: the population standard deviation. *)
Definition np_std (a : list R) : R :=
  sqrt (np_mean (map (fun x => (x - np_mean a) * (x - np_mean a)) a)).

(** The expression [100 * np.diff(np.log(values))], written out three times
    in the module. *)
Definition log_returns (values : list R) : list R :=
  np_scale 100 (np_diff (np_log values)).

(** [s.split(",")] *)
Fixpoint split_on (c : ascii) (s : string) : list string :=
  match s with
  | EmptyString => [EmptyString]
  | String a s' =>
      if Ascii.eqb a c then EmptyString :: split_on c s'
      else match split_on c s' with
           | h :: t => String a h :: t
           | [] => [String a EmptyString]
           end
  end.

(** ** Values *)

(** A float that may be [float("inf")]. *)
Inductive xfloat : Type :=
| Fin (r : R)
| Inf.

(** The untyped dictionaries the module returns as JSON. *)
#[warnings="-register-all"] Inductive json : Type :=
| JNum (x : pyfloat)
| JInt (z : Z)
| JStr (s : string)
| JBool (b : bool)
| JObj (fields : list (string * json)).

(** [d.get(k)] on a JSON object. *)
Fixpoint assoc (k : string) (fields : list (string * json)) : option json :=
  match fields with
  | [] => None
  | (k', v) :: rest => if String.eqb k k' then Some v else assoc k rest
  end.

Definition has_key (k : string) (j : json) : bool :=
  match j with
  | JObj fields => bool_decide (is_Some (assoc k fields))
  | _ => false
  end.

(** What [arch_model(...).fit(...)] returns, as far as the module reads it:
    [result.params] (a series indexed by parameter name),
    [result.conditional_volatility], [result.aic], [result.bic],
    [result.loglikelihood]. *)
Module ArchResult.
Record t : Type := Build {
  params : gmap string R;
  conditional_volatility : list R;
  aic : R;
  bic : R;
  loglikelihood : R;
}.
End ArchResult.

(** [series.get(key, default)] *)
Definition get (s : gmap string R) (key : string) (dflt : R) : R :=
  default dflt (s !! key).

(** ** The libraries behind the module *)

Class Backend : Type := {
  (** [arch_model(returns, mean=mean, vol="GARCH", p=p, q=q, dist=dist).fit(disp="off")] *)
  arch_fit : list R -> string -> Z -> Z -> string -> external ArchResult.t;
  (** [result.forecast(horizon=h).variance.iloc[-1].values] *)
  arch_forecast : ArchResult.t -> Z -> external (list R);
  (** [scipy.stats.t.ppf(q, df=df)] *)
  t_ppf : R -> R -> R;
  (** [float(s)] on a string *)
  py_float : string -> external R;
  (** [f"{x:.Nf}"] *)
  fmt : nat -> R -> string;
}.

(** ** Request and response models *)

Module FitRequest.
Record t : Type := Build {
  series_id : string;
  values : list R;
  p : Z;
  q : Z;
  dist : string;
  mean_model : string;
}.
End FitRequest.

(** The [params] dictionary of a fit, after [persistence] and [half_life]
    are added to it. *)
Module Params.
Record t : Type := Build {
  mu : R;
  omega : R;
  alpha : R;
  beta : R;
  persistence : R;
  half_life : xfloat;
}.
End Params.

Module Regimes.
Record t : Type := Build {
  low : R;
  high : R;
  current : R;
  mean : R;
}.
End Regimes.

(** The dictionary [fit_garch_model] returns. *)
Module FitResult.
Record t : Type := Build {
  success : bool;
  model_spec : list (string * json);
  params : Params.t;
  conditional_volatility : list R;
  volatility_regimes : Regimes.t;
  aic : R;
  bic : R;
  log_likelihood : R;
  interpretation : string;
}.
End FitResult.

Module FitResponse.
Record t : Type := Build {
  success : bool;
  series_id : string;
  model_spec : list (string * json);
  params : option Params.t;
  interpretation : option string;
  conditional_volatility : list R;
  volatility_regimes : option Regimes.t;
  aic : option R;
  bic : option R;
  error : option string;
}.
End FitResponse.

Module AnomalyRequest.
Record t : Type := Build {
  current_value : R;
  historical_values : list R;
  confidence_level : R;
}.
End AnomalyRequest.

(** [AnomalyResponse]; the dictionary [detect_anomaly_with_garch] returns has
    the same nine keys and is unpacked into it key by key, unchanged, so
    one record serves for both. *)
Module AnomalyResponse.
Record t : Type := Build {
  success : bool;
  is_anomaly : bool;
  severity : string;
  z_score : pyfloat;
  conditional_volatility : R;
  value_at_risk_95 : R;
  explanation : string;
  current_value : R;
  confidence_level : R;
}.
End AnomalyResponse.

Module ForecastRequest.
Record t : Type := Build {
  values : list R;
  horizon : Z;
}.
End ForecastRequest.

Module Intervals.
Record t : Type := Build {
  lower : list R;
  upper : list R;
}.
End Intervals.

Module ForecastResponse.
Record t : Type := Build {
  success : bool;
  volatility_forecast : list R;
  annualized_volatility : list R;
  variance_forecast : list R;
  confidence_intervals : option Intervals.t;
  interpretation : option string;
  error : option string;
}.
End ForecastResponse.

(** ** The engine *)

Definition nl : string := String (ascii_of_nat 10) EmptyString.

Section Engine.

Context {backend : Backend}.

(** [f"{x:.Nf}"] for a float that may be infinite. *)
Definition fmt_x (digits : nat) (x : xfloat) : string :=
  match x with
  | Fin r => fmt digits r
  | Inf => "inf"
  end.

(** [f"{x:.Nf}"] for a score. *)
Definition fmt_f (digits : nat) (x : pyfloat) : string :=
  match x with
  | Num r => fmt digits r
  | PosInf => "inf"
  | NegInf => "-inf"
  | NaN => "nan"
  end.

(** Of its [params] argument the function reads the entries [alpha] and
    [beta] only; they are passed as such. *)
Definition generate_interpretation
    (alpha beta persistence : R) (half_life : xfloat) (regimes : Regimes.t)
    : string :=
  let persistence_text :=
    if decide (persistence > 0.9) then
      "波动率具有极强的持续性，大波动后会持续较长时间"
    else if decide (persistence > 0.7) then
      "波动率有一定持续性，冲击影响约1-2周"
    else
      "波动率回归较快，市场相对稳定" in
  let half_life_text :=
    match half_life with
    | Inf => "波动率不收敛，需要警惕"
    | Fin h =>
        if decide (h > 30) then
          "波动率半衰期约" +:+ fmt 0 h +:+ "天，冲击影响持久"
        else if decide (h > 14) then
          "波动率半衰期约" +:+ fmt 0 h +:+ "天，冲击影响约2-4周"
        else
          "波动率半衰期约" +:+ fmt 0 h +:+ "天，冲击影响较快消退"
    end in
  "GARCH(1,1) 模型分析结果:" +:+ nl +:+ nl
  +:+ "【模型参数】" +:+ nl
  +:+ "- 短期冲击响应 (α): " +:+ fmt 4 alpha +:+ nl
  +:+ "- 波动率持续性 (β): " +:+ fmt 4 beta +:+ nl
  +:+ "- 波动率持续性 (α+β): " +:+ fmt 4 persistence +:+ nl
  +:+ "- 半衰期: " +:+ fmt_x 1 half_life +:+ " 天" +:+ nl +:+ nl
  +:+ "【当前波动率状态】" +:+ nl
  +:+ "- 当前波动率: " +:+ fmt 4 (Regimes.current regimes) +:+ "%" +:+ nl
  +:+ "- 历史平均: " +:+ fmt 4 (Regimes.mean regimes) +:+ "%" +:+ nl +:+ nl
  +:+ "【解读】" +:+ nl
  +:+ persistence_text +:+ nl
  +:+ half_life_text +:+ nl +:+ nl
  +:+ "【市场含义】" +:+ nl
  +:+ "当前波动率水平: "
  +:+ (if decide (Regimes.current regimes > Regimes.high regimes) then "偏高"
       else if decide (Regimes.current regimes < Regimes.low regimes) then "偏低"
       else "正常").

Definition fit_garch_model
    (values : list R) (p q : Z) (dist mean_model : string)
    : result FitResult.t :=
  let returns := log_returns values in
  if (length returns <? 100)%nat then
    raise (ValueError ("数据不足: 需要至少100个观测值，当前有"
                       +:+ pretty (length returns) +:+ "个"))
  else
    result <- call (arch_fit returns mean_model p q dist) ;;
    let mu := get (ArchResult.params result) "mu" 0 in
    let omega := get (ArchResult.params result) "omega" 0 in
    let alpha := get (ArchResult.params result) "alpha[1]" 0 in
    let beta := get (ArchResult.params result) "beta[1]" 0 in
    let persistence := alpha + beta in
    let half_life :=
      if decide (persistence < 1) then Fin (ln 0.5 / ln persistence)
      else Inf in
    let cond_vol := ArchResult.conditional_volatility result in
    let vol_mean := np_mean cond_vol in
    let vol_std := np_std cond_vol in
    current <- neg_index cond_vol 1 ;;
    let volatility_regimes :=
      {| Regimes.low := vol_mean - vol_std;
         Regimes.high := vol_mean + vol_std;
         Regimes.current := current;
         Regimes.mean := vol_mean |} in
    let interpretation :=
      generate_interpretation alpha beta persistence half_life
                              volatility_regimes in
    ret {| FitResult.success := true;
           FitResult.model_spec :=
             [("p", JInt p); ("q", JInt q); ("dist", JStr dist);
              ("mean_model", JStr mean_model)];
           FitResult.params :=
             {| Params.mu := mu; Params.omega := omega;
                Params.alpha := alpha; Params.beta := beta;
                Params.persistence := persistence;
                Params.half_life := half_life |};
           FitResult.conditional_volatility := cond_vol;
           FitResult.volatility_regimes := volatility_regimes;
           FitResult.aic := ArchResult.aic result;
           FitResult.bic := ArchResult.bic result;
           FitResult.log_likelihood := ArchResult.loglikelihood result;
           FitResult.interpretation := interpretation |}.

Definition detect_anomaly_with_garch
    (current_value : R) (historical_values : list R) (confidence_level : R)
    : result AnomalyResponse.t :=
  let values := historical_values in
  if (length values <? 100)%nat then
    raise (ValueError "需要至少100个历史数据点")
  else
    result <- fit_garch_model values 1 1 "t" "Constant" ;;
    cond_vol <- neg_index (FitResult.conditional_volatility result) 1 ;;
    let returns := log_returns values in
    prev <- neg_index values 2 ;;
    let current_return :=
      fmul (fdiv (Num (current_value - prev)) (Num prev)) (Num 100) in
    let z_score := fdiv current_return (Num cond_vol) in
    let alpha := 1 - confidence_level in
    let var_quantile := t_ppf alpha 4 in
    let value_at_risk := Rabs (var_quantile * cond_vol) in
    let abs_z := fabs z_score in
    let '(severity, explanation) :=
      if decide (flt abs_z (Num 2)) then
        ("normal",
         "当前利率 " +:+ fmt 4 current_value +:+ "% 波动正常 (Z="
         +:+ fmt_f 2 z_score +:+ ")，处于条件波动率范围内")
      else if decide (flt abs_z (Num 3)) then
        ("warning",
         "利率波动偏高 (Z=" +:+ fmt_f 2 z_score +:+ ")，当前波动率 "
         +:+ fmt 4 cond_vol +:+ "% 高于历史平均")
      else
        ("critical",
         "⚠️ 利率异常波动 (Z=" +:+ fmt_f 2 z_score +:+ ")！当前波动率 "
         +:+ fmt 4 cond_vol +:+ "%，可能预示流动性问题") in
    ret {| AnomalyResponse.success := true;
           AnomalyResponse.is_anomaly := bool_decide (fgt abs_z (Num 2));
           AnomalyResponse.severity := severity;
           AnomalyResponse.z_score := z_score;
           AnomalyResponse.conditional_volatility := cond_vol;
           AnomalyResponse.value_at_risk_95 := value_at_risk;
           AnomalyResponse.explanation := explanation;
           AnomalyResponse.current_value := current_value;
           AnomalyResponse.confidence_level := confidence_level |}.

End Engine.

(** ** The endpoints *)

Section Endpoints.

Context {backend : Backend}.

(** [POST /fit] *)
Definition fit_model (request : FitRequest.t) : FitResponse.t :=
  match fit_garch_model (FitRequest.values request) (FitRequest.p request)
          (FitRequest.q request) (FitRequest.dist request)
          (FitRequest.mean_model request) with
  | inr result =>
      {| FitResponse.success := true;
         FitResponse.series_id := FitRequest.series_id request;
         FitResponse.model_spec := FitResult.model_spec result;
         FitResponse.params := Some (FitResult.params result);
         FitResponse.interpretation := Some (FitResult.interpretation result);
         FitResponse.conditional_volatility :=
           FitResult.conditional_volatility result;
         FitResponse.volatility_regimes :=
           Some (FitResult.volatility_regimes result);
         FitResponse.aic := Some (FitResult.aic result);
         FitResponse.bic := Some (FitResult.bic result);
         FitResponse.error := None |}
  | inl e =>
      {| FitResponse.success := false;
         FitResponse.series_id := FitRequest.series_id request;
         FitResponse.model_spec := [];
         FitResponse.params := None;
         FitResponse.interpretation := None;
         FitResponse.conditional_volatility := [];
         FitResponse.volatility_regimes := None;
         FitResponse.aic := None;
         FitResponse.bic := None;
         FitResponse.error := Some (str e) |}
  end.

(** [POST /anomaly] *)
Definition detect_anomaly (request : AnomalyRequest.t) : AnomalyResponse.t :=
  match detect_anomaly_with_garch (AnomalyRequest.current_value request)
          (AnomalyRequest.historical_values request)
          (AnomalyRequest.confidence_level request) with
  | inr result => result
  | inl e =>
      {| AnomalyResponse.success := false;
         AnomalyResponse.is_anomaly := false;
         AnomalyResponse.severity := "normal";
         AnomalyResponse.z_score := Num 0;
         AnomalyResponse.conditional_volatility := 0;
         AnomalyResponse.value_at_risk_95 := 0;
         AnomalyResponse.explanation := "检测失败: " +:+ str e;
         AnomalyResponse.current_value := AnomalyRequest.current_value request;
         AnomalyResponse.confidence_level :=
           AnomalyRequest.confidence_level request |}
  end.

(** The body of the [try] block of [forecast_volatility]. *)
Definition forecast_volatility_try (request : ForecastRequest.t)
    : result ForecastResponse.t :=
  let values := ForecastRequest.values request in
  let returns := log_returns values in
  result <- call (arch_fit returns "Constant" 1 1 "t") ;;
  variance_forecast <-
    call (arch_forecast result (ForecastRequest.horizon request)) ;;
  let volatility_forecast := np_sqrt variance_forecast in
  let annualized := map (fun v => v * sqrt 252) volatility_forecast in
  let std_error :=
    map (fun v => v / sqrt (INR (length returns))) volatility_forecast in
  let lower :=
    zip_with (fun v s => v - 1.96 * s) volatility_forecast std_error in
  let upper :=
    zip_with (fun v s => v + 1.96 * s) volatility_forecast std_error in
  last_vol <- neg_index volatility_forecast 1 ;;
  first_vol <- index volatility_forecast 0 ;;
  let interpretation :=
    "波动率预测结果:" +:+ nl
    +:+ "- 预测期数: " +:+ pretty (ForecastRequest.horizon request)
    +:+ " 天" +:+ nl
    +:+ "- 预期波动率: " +:+ fmt 4 (np_mean volatility_forecast)
    +:+ "%/天" +:+ nl
    +:+ "- 年化波动率: " +:+ fmt 2 (np_mean annualized) +:+ "%" +:+ nl
    +:+ "- 趋势: "
    +:+ (if decide (last_vol > first_vol) then "上升"
         else if decide (last_vol < first_vol) then "下降"
         else "稳定") in
  ret {| ForecastResponse.success := true;
         ForecastResponse.volatility_forecast := volatility_forecast;
         ForecastResponse.annualized_volatility := annualized;
         ForecastResponse.variance_forecast := variance_forecast;
         ForecastResponse.confidence_intervals :=
           Some {| Intervals.lower := lower; Intervals.upper := upper |};
         ForecastResponse.interpretation := Some interpretation;
         ForecastResponse.error := None |}.

(** [POST /forecast] *)
Definition forecast_volatility (request : ForecastRequest.t)
    : ForecastResponse.t :=
  match forecast_volatility_try request with
  | inr response => response
  | inl e =>
      {| ForecastResponse.success := false;
         ForecastResponse.volatility_forecast := [];
         ForecastResponse.annualized_volatility := [];
         ForecastResponse.variance_forecast := [];
         ForecastResponse.confidence_intervals := None;
         ForecastResponse.interpretation := None;
         ForecastResponse.error := Some (str e) |}
  end.

(** The body of the [try] block of [compare_methods]. *)
Definition compare_methods_try (series_id values : string) : result json :=
  vals <- mapM (fun v => call (py_float v)) (split_on "," values) ;;
  current_value <- neg_index vals 1 ;;
  let historical := take (length vals - 1) vals in
  let z_mean := np_mean historical in
  let z_std := np_std historical in
  let z_score := fdiv (Num (current_value - z_mean)) (Num z_std) in
  garch_result <- detect_anomaly_with_garch current_value historical 0.95 ;;
  ret (JObj
    [("series_id", JStr series_id);
     ("current_value", JNum (Num current_value));
     ("methods", JObj
        [("zscore", JObj
            [("mean", JNum (Num z_mean));
             ("std", JNum (Num z_std));
             ("z_score", JNum z_score);
             ("is_anomaly", JBool (bool_decide (fgt (fabs z_score) (Num 2))));
             ("assumption", JStr "波动率恒定")]);
         ("garch", JObj
            [("conditional_volatility",
              JNum (Num (AnomalyResponse.conditional_volatility
                           garch_result)));
             ("z_score", JNum (AnomalyResponse.z_score garch_result));
             ("is_anomaly",
              JBool (AnomalyResponse.is_anomaly garch_result));
             ("assumption", JStr "时变波动率")])]);
     ("comparison", JObj
        [("zscore_threshold", JInt 2);
         ("garch_threshold", JInt 2);
         ("difference",
          JStr "GARCH 在危机时期会自动提高波动率阈值，减少误报")])]).

(** [GET /compare/{series_id}] *)
Definition compare_methods (series_id values : string) : json :=
  match compare_methods_try series_id values with
  | inr body => body
  | inl e => JObj [("error", JStr (str e))]
  end.

End Endpoints.

(** ** Reference definitions for the diagnostics *)

(** The name the estimator gives the coefficient of lag [i]: [alpha[i]],
    [beta[i]]. *)
Definition coeff_name (family : string) (i : nat) : string :=
  family +:+ "[" +:+ pretty i +:+ "]".

(** The sum of the coefficients of one family over the lags [first], ...,
    [first + count - 1]. *)
Definition coeff_sum (family : string) (first count : nat)
    (params : gmap string R) : R :=
  np_sum (map (fun i => get params (coeff_name family i) 0) (seq first count)).

(** Persistence as the diagnostics define it for a model with [p] alpha and
    [q] beta coefficients: the sum of all of them. *)
Definition full_persistence (p q : nat) (params : gmap string R) : R :=
  coeff_sum "alpha" 1 p params + coeff_sum "beta" 1 q params.

(** The z-score of [current] against the reference level [prev] at the
    conditional volatility [sigma], as [detect_anomaly_with_garch] computes
    it: the percentage change divided by the volatility. *)
Definition anomaly_score (current prev sigma : R) : pyfloat :=
  fdiv (fmul (fdiv (Num (current - prev)) (Num prev)) (Num 100)) (Num sigma).

(** [c.join(tokens)], the inverse of [split_on]. *)
Fixpoint join_with (c : ascii) (tokens : list string) : string :=
  match tokens with
  | [] => EmptyString
  | [t] => t
  | t :: rest => t +:+ String c (join_with c rest)
  end.

(** Whether the character [c] occurs in [s]. *)
Fixpoint occurs (c : ascii) (s : string) : bool :=
  match s with
  | EmptyString => false
  | String a s' => Ascii.eqb a c || occurs c s'
  end.

(** ** A sample backend

    A small implementation of [Backend], to run the module on concrete
    requests: the fit reports two lags of each family and a conditional
    volatility of 2 for every return, the forecast is a constant variance,
    and [float] reads unsigned decimal integers. *)

Definition digit_of (c : ascii) : option nat :=
  let n := nat_of_ascii c in
  if (48 <=? n)%nat && (n <=? 57)%nat then Some (n - 48)%nat else None.

Fixpoint parse_digits (acc : nat) (s : string) : option nat :=
  match s with
  | EmptyString => Some acc
  | String c s' =>
      match digit_of c with
      | Some d => parse_digits (10 * acc + d) s'
      | None => None
      end
  end.

Definition sample_float (s : string) : external R :=
  match s with
  | EmptyString => inl "could not convert string to float"
  | _ =>
      match parse_digits 0 s with
      | Some n => inr (IZR (Z.of_nat n))
      | None => inl "could not convert string to float"
      end
  end.

Definition sample_params : gmap string R :=
  <["mu" := 0]> (<["omega" := 0.1]> (<["alpha[1]" := 0.1]>
  (<["alpha[2]" := 0.2]> (<["beta[1]" := 0.3]> (<["beta[2]" := 0.3]> ∅))))).

Definition sample_fit (returns : list R) : ArchResult.t :=
  {| ArchResult.params := sample_params;
     ArchResult.conditional_volatility := replicate (length returns) 2;
     ArchResult.aic := 0;
     ArchResult.bic := 0;
     ArchResult.loglikelihood := 0 |}.

Definition sample_backend : Backend :=
  {| arch_fit := fun returns _ _ _ _ => inr (sample_fit returns);
     arch_forecast := fun _ horizon => inr (replicate (Z.to_nat horizon) 4);
     t_ppf := fun _ _ => -2;
     py_float := sample_float;
     fmt := fun _ _ => "?" |}.



(** A backend whose estimator raises: every fit fails with [msg]. *)
Definition failing_backend (msg : string) : Backend :=
  {| arch_fit := fun _ _ _ _ _ => inl msg;
     arch_forecast := fun _ _ => inl msg;
     t_ppf := fun _ _ => -2;
     py_float := sample_float;
     fmt := fun _ _ => "?" |}.

(** Levels that move between 5.00 and 5.06 in steps of 0.01. *)
Definition wave (n : nat) : list R :=
  map (fun i => 5 + INR (i mod 7) / 100) (seq 0 n).

(** A history of 101 levels that ends on a jump from 5.01 to 6. *)
Definition sample_history : list R := wave 99 ++ [5.01; 6].

(** * Properties *)

(** ** Score arithmetic *)

Lemma fdiv_Num (a b : R) : b <> 0 -> fdiv (Num a) (Num b) = Num (a / b).
Proof. intros Hb. simpl. rewrite decide_False by assumption. reflexivity. Qed.

(** Away from a zero reference level and a zero volatility the score is the
    real quotient. *)
Lemma anomaly_score_Num (current prev sigma : R) :
  prev <> 0 -> sigma <> 0 ->
  anomaly_score current prev sigma
  = Num ((current - prev) / prev * 100 / sigma).
Proof.
  intros Hprev Hsigma. unfold anomaly_score.
  rewrite (fdiv_Num _ prev Hprev). simpl fmul.
  apply fdiv_Num. assumption.
Qed.


(** ** The error monad and indexing *)

Lemma bind_inr {A B : Type} (m : result A) (k : A -> result B) (b : B) :
  bind m k = inr b -> exists a, m = inr a /\ k a = inr b.
Proof. destruct m as [e | a]; simpl; [discriminate | eauto]. Qed.

Lemma bind_inl {A B : Type} (m : result A) (k : A -> result B) (e : exn) :
  bind m k = inl e -> m = inl e \/ exists a, m = inr a /\ k a = inl e.
Proof. destruct m as [e' | a]; simpl; [intros [= ->]; auto | eauto]. Qed.

Lemma call_inr {A : Type} (x : external A) (a : A) :
  call x = inr a <-> x = inr a.
Proof. destruct x; simpl; unfold raise, ret; split; congruence. Qed.

Lemma call_not_insufficient {A : Type} (x : external A) (e : exn) :
  call x = inl e -> is_insufficient_data e = false.
Proof. destruct x; simpl; unfold raise, ret; intros [= <-]; reflexivity. Qed.

Lemma neg_index_inr {A : Type} (a : list A) (k : nat) (x : A) :
  neg_index a k = inr x <->
  (k <= length a)%nat /\ a !! (length a - k)%nat = Some x.
Proof.
  unfold neg_index.
  destruct (Nat.ltb_spec (length a) k) as [Hlt | Hge].
  - split; [discriminate | lia].
  - destruct (a !! (length a - k)%nat) as [y |]; unfold ret, raise.
    + split; [intros [= ->]; auto | intros [_ [= ->]]; reflexivity].
    + split; [discriminate | intros [_ [=]]].
Qed.

Lemma neg_index_not_insufficient {A : Type} (a : list A) (k : nat) (e : exn) :
  neg_index a k = inl e -> is_insufficient_data e = false.
Proof.
  unfold neg_index, raise, ret.
  destruct (length a <? k)%nat; [intros [= <-]; reflexivity |].
  destruct (a !! _); [discriminate | intros [= <-]; reflexivity].
Qed.

Lemma neg_index_last {A : Type} (a : list A) (x : A) :
  neg_index a 1 = inr x <-> last a = Some x.
Proof.
  rewrite neg_index_inr, last_lookup.
  replace (length a - 1)%nat with (Nat.pred (length a)) by lia.
  split; [tauto |].
  intros H; split; [| exact H].
  apply lookup_lt_Some in H. lia.
Qed.

Lemma neg_index_snoc2 {A : Type} (a : list A) (x y : A) :
  neg_index (a ++ [x; y]) 2 = inr x.
Proof.
  apply neg_index_inr. rewrite length_app; simpl. split; [lia |].
  replace (length a + 2 - 2)%nat with (length a + 0)%nat by lia.
  rewrite lookup_app_r by lia.
  replace (length a + 0 - length a)%nat with 0%nat by lia. reflexivity.
Qed.

(** ** Sequences on small inputs *)

Example split_on_commas : split_on "," "1,2,3" = ["1"; "2"; "3"]%string.
Proof. reflexivity. Qed.

Example split_on_empty : split_on "," "" = [""]%string.
Proof. reflexivity. Qed.

Example split_on_trailing : split_on "," "7," = ["7"; ""]%string.
Proof. reflexivity. Qed.

Example np_diff_three : np_diff [1; 3; 6] = [3 - 1; 6 - 3].
Proof. reflexivity. Qed.

Example neg_index_second_to_last : neg_index [1; 3; 6] 2 = inr 3.
Proof. reflexivity. Qed.

Example neg_index_too_short :
  neg_index [1] 2
  = inl (IndexError "index -2 is out of bounds for axis 0 with size 1").
Proof. reflexivity. Qed.

Example sample_float_digits : sample_float "42" = inr 42.
Proof. reflexivity. Qed.

(** ** The return transform *)

Lemma np_diff_nil : np_diff [] = [].
Proof. reflexivity. Qed.

Lemma np_diff_singleton (x : R) : np_diff [x] = [].
Proof. reflexivity. Qed.

Lemma np_diff_cons (x y : R) (a : list R) :
  np_diff (x :: y :: a) = (y - x) :: np_diff (y :: a).
Proof. unfold np_diff; simpl. rewrite Nat.sub_0_r. reflexivity. Qed.

Lemma length_np_diff (a : list R) : length (np_diff a) = (length a - 1)%nat.
Proof.
  unfold np_diff. rewrite length_zip_with, length_drop, length_take. lia.
Qed.

Lemma length_log_returns (values : list R) :
  length (log_returns values) = (length values - 1)%nat.
Proof.
  unfold log_returns, np_scale, np_log.
  rewrite length_map, length_np_diff, length_map. reflexivity.
Qed.

Lemma lookup_np_diff (a : list R) (t : nat) (x y : R) :
  a !! t = Some x -> a !! S t = Some y -> np_diff a !! t = Some (y - x).
Proof.
  revert t; induction a as [| u a IH]; intros t Hx Hy; [discriminate |].
  destruct a as [| v a]; [discriminate |].
  rewrite np_diff_cons. destruct t as [| t]; simpl in *.
  - congruence.
  - apply IH; assumption.
Qed.

Lemma log_returns_scale (c : R) (values : list R) :
  0 < c -> Forall (fun v => 0 < v) values ->
  log_returns (map (Rmult c) values) = log_returns values.
Proof.
  intros Hc. unfold log_returns, np_log. intros Hpos. f_equal.
  induction Hpos as [| x a Hx Ha IH]; [reflexivity |].
  destruct Ha as [| y a Hy Ha]; [reflexivity |].
  simpl map in *. rewrite !np_diff_cons, IH. f_equal.
  rewrite !ln_mult by assumption. lra.
Qed.

(** C9. For a series of at least two positive levels the return transform
    yields one value fewer than there are levels, the value at position [t]
    is [100 * (ln level_(t+1) - ln level_t)] for every consecutive pair, in
    order, and multiplying every level by the same positive constant leaves
    the returns unchanged. *)
Theorem log_returns_spec (values : list R) (c : R) :
  (2 <= length values)%nat ->
  Forall (fun v => 0 < v) values ->
  0 < c ->
  length (log_returns values) = (length values - 1)%nat
  /\ (forall t x y,
        values !! t = Some x -> values !! S t = Some y ->
        log_returns values !! t = Some (100 * (ln y - ln x)))
  /\ log_returns (map (Rmult c) values) = log_returns values.
Proof.
  intros _ Hpos Hc. split; [apply length_log_returns | split].
  - intros t x y Hx Hy. unfold log_returns, np_scale, np_log.
    rewrite list_lookup_fmap.
    erewrite lookup_np_diff; [reflexivity | |];
      rewrite list_lookup_fmap; [rewrite Hx | rewrite Hy]; reflexivity.
  - apply log_returns_scale; assumption.
Qed.

Lemma log_returns_spec_witness :
  length (log_returns [1; 2; 4]) = 2%nat
  /\ (forall t x y,
        [1; 2; 4] !! t = Some x -> [1; 2; 4] !! S t = Some y ->
        log_returns [1; 2; 4] !! t = Some (100 * (ln y - ln x)))
  /\ log_returns (map (Rmult 3) [1; 2; 4]) = log_returns [1; 2; 4].
Proof.
  apply (log_returns_spec [1; 2; 4] 3).
  - simpl; lia.
  - repeat constructor; lra.
  - lra.
Defined.

(** ** The estimator wrapper *)

Section EngineFacts.

Context {backend : Backend}.

(** Too few levels: the guard of [fit_garch_model] fires, before the
    estimator is called. *)
Lemma fit_garch_model_short (values : list R) (p q : Z) (dist mean : string) :
  (length values <= 100)%nat ->
  exists msg, fit_garch_model values p q dist mean = inl (ValueError msg).
Proof.
  intros Hlen. unfold fit_garch_model.
  destruct (Nat.ltb_spec (length (log_returns values)) 100) as [_ | Hge].
  - eexists; reflexivity.
  - rewrite length_log_returns in Hge. lia.
Qed.

(** Enough levels: the outcome is the estimator's, followed by the
    diagnostics. *)
Lemma fit_garch_model_inr (values : list R) (p q : Z) (dist mean : string)
    (res : FitResult.t) :
  fit_garch_model values p q dist mean = inr res ->
  (101 <= length values)%nat
  /\ exists a,
       arch_fit (log_returns values) mean p q dist = inr a
       /\ FitResult.conditional_volatility res
          = ArchResult.conditional_volatility a
       /\ Params.alpha (FitResult.params res)
          = get (ArchResult.params a) "alpha[1]" 0
       /\ Params.beta (FitResult.params res)
          = get (ArchResult.params a) "beta[1]" 0
       /\ Params.persistence (FitResult.params res)
          = Params.alpha (FitResult.params res)
            + Params.beta (FitResult.params res).
Proof.
  unfold fit_garch_model.
  destruct (Nat.ltb_spec (length (log_returns values)) 100) as [| Hge];
    [discriminate |].
  rewrite length_log_returns in Hge.
  intros Hfit. apply bind_inr in Hfit as (a & Ha & H1). apply call_inr in Ha.
  apply bind_inr in H1 as (cur & _ & H2). injection H2 as <-.
  split; [lia |]. exists a. simpl. auto.
Qed.

Lemma fit_garch_model_ok (values : list R) (p q : Z) (dist mean : string)
    (a : ArchResult.t) (sigma : R) :
  (101 <= length values)%nat ->
  arch_fit (log_returns values) mean p q dist = inr a ->
  last (ArchResult.conditional_volatility a) = Some sigma ->
  exists res,
    fit_garch_model values p q dist mean = inr res
    /\ FitResult.conditional_volatility res
       = ArchResult.conditional_volatility a.
Proof.
  intros Hlen Ha Hlast. unfold fit_garch_model.
  destruct (Nat.ltb_spec (length (log_returns values)) 100) as [Hlt | _].
  { rewrite length_log_returns in Hlt. lia. }
  rewrite Ha. simpl.
  apply neg_index_last in Hlast. rewrite Hlast. simpl.
  eexists; split; reflexivity.
Qed.

(** Whatever else goes wrong in [fit_garch_model] once the guard has passed
    is not a data-sufficiency failure. *)
Lemma fit_garch_model_long_error (values : list R) (p q : Z)
    (dist mean : string) (e : exn) :
  (101 <= length values)%nat ->
  fit_garch_model values p q dist mean = inl e ->
  is_insufficient_data e = false.
Proof.
  intros Hlen. unfold fit_garch_model.
  destruct (Nat.ltb_spec (length (log_returns values)) 100) as [Hlt | _].
  { rewrite length_log_returns in Hlt. lia. }
  intros Hfit. apply bind_inl in Hfit as [H1 | (a & _ & H1)].
  - eapply call_not_insufficient; eassumption.
  - apply bind_inl in H1 as [H2 | (cur & _ & H2)]; [| discriminate].
    eapply neg_index_not_insufficient; eassumption.
Qed.

(** C5. [fit_garch_model] fails with the insufficient-data error if and only
    if the series yields fewer than 100 returns, where a series of [n]
    levels yields [n - 1] returns.  At the boundary: 101 levels (100 returns)
    pass the check, so that the fit succeeds as soon as the estimator does,
    and 100 levels (99 returns) are rejected. *)
Theorem fit_insufficient_iff (values : list R) (p q : Z) (dist mean : string) :
  ((exists e, fit_garch_model values p q dist mean = inl e
              /\ is_insufficient_data e = true)
   <-> (length (log_returns values) < 100)%nat)
  /\ length (log_returns values) = (length values - 1)%nat
  /\ (length values = 101%nat ->
      (forall e, fit_garch_model values p q dist mean = inl e ->
                 is_insufficient_data e = false)
      /\ (forall a sigma,
            arch_fit (log_returns values) mean p q dist = inr a ->
            last (ArchResult.conditional_volatility a) = Some sigma ->
            exists res, fit_garch_model values p q dist mean = inr res))
  /\ (length values = 100%nat ->
      exists e, fit_garch_model values p q dist mean = inl e
                /\ is_insufficient_data e = true).
Proof.
  assert (Hshort : (length values <= 100)%nat ->
                   exists e, fit_garch_model values p q dist mean = inl e
                             /\ is_insufficient_data e = true).
  { intros Hle.
    destruct (fit_garch_model_short values p q dist mean Hle) as [msg Hmsg].
    exists (ValueError msg). auto. }
  rewrite length_log_returns. repeat split.
  - intros (e & He & Hins).
    destruct (Nat.le_gt_cases 101 (length values)) as [Hge |]; [| lia].
    rewrite (fit_garch_model_long_error _ _ _ _ _ _ Hge He) in Hins.
    discriminate.
  - intros Hlt. apply Hshort. lia.
  - intros e He. eapply fit_garch_model_long_error; [| eassumption]. lia.
  - intros a sigma Ha Hlast.
    destruct (fit_garch_model_ok values p q dist mean a sigma)
      as (res & Hres & _); [lia | assumption | assumption |].
    exists res. assumption.
  - intros Hlen. apply Hshort. lia.
Qed.

End EngineFacts.

(** ** The anomaly scorer *)

Section AnomalyFacts.

Context {backend : Backend}.

(** What a successful call of [detect_anomaly_with_garch] went through and
    what it returns. *)
Lemma detect_anomaly_with_garch_inr (current : R) (history : list R)
    (level : R) (r : AnomalyResponse.t) :
  detect_anomaly_with_garch current history level = inr r ->
  exists a sigma prev,
    (101 <= length history)%nat
    /\ arch_fit (log_returns history) "Constant" 1 1 "t" = inr a
    /\ last (ArchResult.conditional_volatility a) = Some sigma
    /\ history !! (length history - 2)%nat = Some prev
    /\ AnomalyResponse.z_score r = anomaly_score current prev sigma
    /\ AnomalyResponse.conditional_volatility r = sigma
    /\ AnomalyResponse.value_at_risk_95 r = Rabs (t_ppf (1 - level) 4 * sigma)
    /\ AnomalyResponse.severity r
       = (if decide (flt (fabs (AnomalyResponse.z_score r)) (Num 2))
          then "normal"
          else if decide (flt (fabs (AnomalyResponse.z_score r)) (Num 3))
          then "warning"
          else "critical")
    /\ AnomalyResponse.is_anomaly r
       = bool_decide (fgt (fabs (AnomalyResponse.z_score r)) (Num 2))
    /\ AnomalyResponse.success r = true.
Proof.
  unfold detect_anomaly_with_garch.
  destruct (length history <? 100)%nat; [discriminate |].
  intros Hrun.
  apply bind_inr in Hrun as (res & Hfit & Hrun).
  apply fit_garch_model_inr in Hfit as (Hlen & a & Ha & Hvol & _).
  apply bind_inr in Hrun as (sigma & Hsigma & Hrun).
  rewrite Hvol in Hsigma. apply neg_index_last in Hsigma.
  apply bind_inr in Hrun as (prev & Hprev & Hrun).
  apply neg_index_inr in Hprev as [_ Hprev].
  exists a, sigma, prev.
  do 4 (split; [assumption |]).
  fold (anomaly_score current prev sigma) in Hrun.
  destruct (decide (flt (fabs (anomaly_score current prev sigma)) (Num 2)))
    as [Hn | Hn];
    [| destruct (decide (flt (fabs (anomaly_score current prev sigma))
                          (Num 3))) as [Hw | Hw]];
    injection Hrun as <-;
    cbn [AnomalyResponse.z_score AnomalyResponse.conditional_volatility
         AnomalyResponse.value_at_risk_95 AnomalyResponse.severity
         AnomalyResponse.is_anomaly AnomalyResponse.success];
    repeat split.
  - rewrite decide_True by assumption. reflexivity.
  - rewrite decide_False, decide_True by assumption. reflexivity.
  - rewrite !decide_False by assumption. reflexivity.
Qed.

(** The scorer returns a result as soon as the history has 101 levels and
    the estimator returns a fit with a conditional volatility. *)
Lemma detect_anomaly_with_garch_ok (current : R) (history : list R)
    (level : R) (a : ArchResult.t) (sigma : R) :
  (101 <= length history)%nat ->
  arch_fit (log_returns history) "Constant" 1 1 "t" = inr a ->
  last (ArchResult.conditional_volatility a) = Some sigma ->
  exists r, detect_anomaly_with_garch current history level = inr r.
Proof.
  intros Hlen Ha Hlast. unfold detect_anomaly_with_garch.
  destruct (Nat.ltb_spec (length history) 100) as [Hlt | _]; [lia |].
  destruct (fit_garch_model_ok history 1 1 "t" "Constant" a sigma)
    as (res & -> & Hvol); try assumption.
  simpl. rewrite Hvol. apply neg_index_last in Hlast. rewrite Hlast. simpl.
  destruct (lookup_lt_is_Some_2 history (length history - 2)) as [prev Hprev];
    [lia |].
  assert (Hidx : neg_index history 2 = inr prev).
  { apply neg_index_inr. split; [lia | assumption]. }
  rewrite Hidx. cbn [bind].
  destruct (decide (flt _ (Num 2))); [| destruct (decide (flt _ (Num 3)))];
    eexists; reflexivity.
Qed.

(** With 101 levels or more no failure of the scorer is a data-sufficiency
    failure. *)
Lemma detect_anomaly_with_garch_long_error (current : R) (history : list R)
    (level : R) (e : exn) :
  (101 <= length history)%nat ->
  detect_anomaly_with_garch current history level = inl e ->
  is_insufficient_data e = false.
Proof.
  intros Hlen. unfold detect_anomaly_with_garch.
  destruct (Nat.ltb_spec (length history) 100) as [Hlt | _]; [lia |].
  intros Hrun. apply bind_inl in Hrun as [Hfit | (res & _ & Hrun)].
  { eapply fit_garch_model_long_error; eassumption. }
  apply bind_inl in Hrun as [Hidx | (sigma & _ & Hrun)].
  { eapply neg_index_not_insufficient; eassumption. }
  apply bind_inl in Hrun as [Hidx | (prev & _ & Hrun)].
  { eapply neg_index_not_insufficient; eassumption. }
  destruct (decide _); [| destruct (decide _)]; discriminate.
Qed.

(** With 100 levels or fewer the scorer fails with a data-sufficiency
    failure: below 100 by its own guard, at 100 by the guard of
    [fit_garch_model]. *)
Lemma detect_anomaly_with_garch_short (current : R) (history : list R)
    (level : R) :
  (length history <= 100)%nat ->
  exists msg,
    detect_anomaly_with_garch current history level = inl (ValueError msg).
Proof.
  intros Hlen. unfold detect_anomaly_with_garch.
  destruct (length history <? 100)%nat; [eexists; reflexivity |].
  destruct (fit_garch_model_short history 1 1 "t" "Constant" Hlen)
    as [msg ->].
  eexists; reflexivity.
Qed.

End AnomalyFacts.

(** ** Running the sample backend *)

Lemma sample_history_fit_volatility :
  last (ArchResult.conditional_volatility
          (sample_fit (log_returns sample_history))) = Some 2.
Proof.
  change (last (replicate (length (log_returns sample_history)) 2) = Some 2).
  rewrite length_log_returns. reflexivity.
Qed.

Lemma sample_history_scored (current level : R) :
  exists r,
    detect_anomaly_with_garch (backend := sample_backend)
      current sample_history level = inr r
    /\ AnomalyResponse.conditional_volatility r = 2.
Proof.
  destruct (detect_anomaly_with_garch_ok (backend := sample_backend)
              current sample_history level
              (sample_fit (log_returns sample_history)) 2)
    as [r Hr];
    [reflexivity | reflexivity | exact sample_history_fit_volatility |].
  exists r. split; [exact Hr |].
  apply detect_anomaly_with_garch_inr in Hr
    as (a & sigma & prev & _ & Ha & Hlast & _ & _ & -> & _).
  injection Ha as <-. rewrite sample_history_fit_volatility in Hlast.
  congruence.
Qed.

(** ** The claims about the anomaly scorer *)

(** C1. The current return is taken relative to the entry before the last
    one of the history ([values[-2]]), not the last.  Hence, when the current
    value equals the last historical value and that value differs from its
    predecessor, the z-score is
    [(last - prev) / prev * 100 / conditional_volatility] and is not 0. *)
Theorem anomaly_return_base {backend : Backend}
    (history : list R) (prev last_value level : R) (r : AnomalyResponse.t) :
  detect_anomaly_with_garch last_value (history ++ [prev; last_value]) level
  = inr r ->
  last_value <> prev ->
  prev <> 0 ->
  AnomalyResponse.conditional_volatility r <> 0 ->
  AnomalyResponse.z_score r
  = Num ((last_value - prev) / prev * 100
         / AnomalyResponse.conditional_volatility r)
  /\ AnomalyResponse.z_score r <> Num 0.
Proof.
  intros Hrun Hne Hprev Hvol.
  apply detect_anomaly_with_garch_inr in Hrun
    as (a & sigma & prev' & _ & _ & _ & Hidx & Hz & Hsigma & _).
  assert (Hp : neg_index (history ++ [prev; last_value]) 2 = inr prev')
    by (apply neg_index_inr; split;
        [rewrite length_app; simpl; lia | exact Hidx]).
  rewrite neg_index_snoc2 in Hp. injection Hp as <-.
  rewrite Hsigma in *.
  rewrite (anomaly_score_Num _ _ _ Hprev Hvol) in Hz.
  split; [exact Hz |].
  rewrite Hz. intros [= Hzero]. revert Hzero. unfold Rdiv.
  repeat apply Rmult_integral_contrapositive_currified;
    try apply Rinv_neq_0_compat; try assumption; lra.
Qed.

Lemma anomaly_return_base_witness :
  exists r,
    detect_anomaly_with_garch (backend := sample_backend) 6 sample_history 0.95
    = inr r
    /\ AnomalyResponse.z_score r
       = Num ((6 - 5.01) / 5.01 * 100
              / AnomalyResponse.conditional_volatility r)
    /\ AnomalyResponse.z_score r <> Num 0.
Proof.
  destruct (sample_history_scored 6 0.95) as (r & Hr & Hvol).
  exists r. split; [exact Hr |].
  apply (anomaly_return_base (backend := sample_backend)
           (wave 99) 5.01 6 0.95 r Hr); [lra | lra |].
  rewrite Hvol. lra.
Defined.

(** The same request, evaluated: a current value equal to the last
    historical value is scored against the jump before it and classified
    critical. *)
Lemma anomaly_unchanged_value_example :
  exists r,
    detect_anomaly_with_garch (backend := sample_backend) 6 sample_history 0.95
    = inr r
    /\ AnomalyResponse.z_score r = Num ((6 - 5.01) / 5.01 * 100 / 2)
    /\ AnomalyResponse.severity r = "critical"
    /\ AnomalyResponse.is_anomaly r = true.
Proof.
  destruct (sample_history_scored 6 0.95) as (r & Hr & Hvol).
  exists r. split; [exact Hr |].
  pose proof (detect_anomaly_with_garch_inr _ _ _ _ Hr)
    as (a & sigma & prev & _ & _ & _ & Hidx & Hz & Hsigma & _ & Hsev & Han & _).
  assert (Hprev : prev = 5.01).
  { assert (Hp : neg_index sample_history 2 = inr prev)
      by (apply neg_index_inr; split; [simpl; lia | exact Hidx]).
    unfold sample_history in Hp. rewrite neg_index_snoc2 in Hp.
    congruence. }
  assert (Hscore : AnomalyResponse.z_score r
                   = Num ((6 - 5.01) / 5.01 * 100 / 2)).
  { rewrite Hz. rewrite <- Hsigma, Hvol, Hprev.
    apply anomaly_score_Num; lra. }
  split; [exact Hscore |].
  rewrite Hsev, Han, Hscore.
  assert (Habs : 3 <= Rabs ((6 - 5.01) / 5.01 * 100 / 2))
    by (rewrite Rabs_pos_eq; lra).
  split.
  - rewrite !decide_False by (simpl; lra). reflexivity.
  - apply bool_decide_eq_true. unfold fgt. simpl. lra.
Qed.

(** C4, as the code has it. The anomaly scorer fails with the
    insufficient-data error exactly when the history has fewer than 101
    points, that is, yields fewer than 100 returns: below 100 points by its
    own guard and at exactly 100 points by the 100-return guard of the fit.
    From 101 points on it returns a score as soon as the estimator returns a
    fit. *)
Theorem anomaly_insufficient_iff {backend : Backend}
    (current : R) (history : list R) (level : R) :
  ((exists e, detect_anomaly_with_garch current history level = inl e
              /\ is_insufficient_data e = true)
   <-> (length history < 101)%nat)
  /\ ((101 <= length history)%nat ->
      forall a sigma,
        arch_fit (log_returns history) "Constant" 1 1 "t" = inr a ->
        last (ArchResult.conditional_volatility a) = Some sigma ->
        exists r, detect_anomaly_with_garch current history level = inr r).
Proof.
  split; [split |].
  - intros (e & He & Hins).
    destruct (Nat.le_gt_cases 101 (length history)) as [Hge |]; [| lia].
    rewrite (detect_anomaly_with_garch_long_error _ _ _ _ Hge He) in Hins.
    discriminate.
  - intros Hlt.
    destruct (detect_anomaly_with_garch_short current history level)
      as [msg Hmsg]; [lia |].
    exists (ValueError msg). auto.
  - intros Hge a sigma Ha Hlast.
    eapply detect_anomaly_with_garch_ok; eassumption.
Qed.

(** C4, as stated, fails on a history of exactly 100 points: the scorer's
    own guard passes, and the request is still rejected for insufficient
    data, by the fit, which counts 99 returns. *)
Lemma anomaly_100_points_rejected :
  length (wave 100) = 100%nat
  /\ detect_anomaly_with_garch (backend := sample_backend)
       5 (wave 100) 0.95
     = inl (ValueError "数据不足: 需要至少100个观测值，当前有99个")
  /\ is_insufficient_data
       (ValueError "数据不足: 需要至少100个观测值，当前有99个") = true.
Proof. repeat split. Qed.

(** C6. On every successful anomaly request the reported value at risk is
    the absolute value of the Student-t quantile at [1 - confidence_level]
    with 4 degrees of freedom, times the last conditional volatility of the
    fitted model (a volatility, hence not negative); the 4 is a constant of
    the code, whatever the estimator returned. *)
Theorem anomaly_value_at_risk {backend : Backend}
    (current : R) (history : list R) (level : R) (r : AnomalyResponse.t) :
  detect_anomaly_with_garch current history level = inr r ->
  0 <= AnomalyResponse.conditional_volatility r ->
  AnomalyResponse.value_at_risk_95 r
  = Rabs (t_ppf (1 - level) 4) * AnomalyResponse.conditional_volatility r
  /\ exists a,
       arch_fit (log_returns history) "Constant" 1 1 "t" = inr a
       /\ last (ArchResult.conditional_volatility a)
          = Some (AnomalyResponse.conditional_volatility r).
Proof.
  intros Hrun Hvol.
  apply detect_anomaly_with_garch_inr in Hrun
    as (a & sigma & prev & _ & Ha & Hlast & _ & _ & Hsigma & Hvar & _).
  rewrite Hsigma in *. split.
  - rewrite Hvar, Rabs_mult. f_equal. apply Rabs_pos_eq. assumption.
  - exists a. split; assumption.
Qed.

Lemma anomaly_value_at_risk_witness :
  exists r,
    detect_anomaly_with_garch (backend := sample_backend) 6 sample_history 0.95
    = inr r
    /\ AnomalyResponse.value_at_risk_95 r
       = Rabs (-2) * AnomalyResponse.conditional_volatility r.
Proof.
  destruct (sample_history_scored 6 0.95) as (r & Hr & Hvol).
  exists r. split; [exact Hr |].
  apply (anomaly_value_at_risk (backend := sample_backend)
           6 sample_history 0.95 r Hr).
  rewrite Hvol. lra.
Defined.




(** ** The endpoints on failure *)

(** Each endpoint is a [match] on the outcome of its [try] block: with the
    failure at hand, the [except] branch is what is left. *)
Ltac rewrite_failure :=
  match goal with
  | H : _ = inl _ |- _ => rewrite H; reflexivity
  end.

(** C10. When the scoring pipeline raises, [/anomaly] answers with
    [success = false] and the fixed neutral values [is_anomaly = false],
    [severity = "normal"], [z_score = 0], [conditional_volatility = 0] and
    [value_at_risk_95 = 0]; the message goes into [explanation] and the two
    request fields are echoed. *)
Theorem detect_anomaly_failure {backend : Backend}
    (request : AnomalyRequest.t) (e : exn) :
  detect_anomaly_with_garch (AnomalyRequest.current_value request)
    (AnomalyRequest.historical_values request)
    (AnomalyRequest.confidence_level request) = inl e ->
  detect_anomaly request
  = {| AnomalyResponse.success := false;
       AnomalyResponse.is_anomaly := false;
       AnomalyResponse.severity := "normal";
       AnomalyResponse.z_score := Num 0;
       AnomalyResponse.conditional_volatility := 0;
       AnomalyResponse.value_at_risk_95 := 0;
       AnomalyResponse.explanation := "检测失败: " +:+ str e;
       AnomalyResponse.current_value := AnomalyRequest.current_value request;
       AnomalyResponse.confidence_level :=
         AnomalyRequest.confidence_level request |}.
Proof. intros Hrun. unfold detect_anomaly. rewrite Hrun. reflexivity. Qed.

Lemma detect_anomaly_failure_witness :
  detect_anomaly (backend := sample_backend)
    {| AnomalyRequest.current_value := 5;
       AnomalyRequest.historical_values := [4; 5];
       AnomalyRequest.confidence_level := 0.95 |}
  = {| AnomalyResponse.success := false;
       AnomalyResponse.is_anomaly := false;
       AnomalyResponse.severity := "normal";
       AnomalyResponse.z_score := Num 0;
       AnomalyResponse.conditional_volatility := 0;
       AnomalyResponse.value_at_risk_95 := 0;
       AnomalyResponse.explanation := "检测失败: 需要至少100个历史数据点";
       AnomalyResponse.current_value := 5;
       AnomalyResponse.confidence_level := 0.95 |}.
Proof.
  apply (detect_anomaly_failure (backend := sample_backend)
           {| AnomalyRequest.current_value := 5;
              AnomalyRequest.historical_values := [4; 5];
              AnomalyRequest.confidence_level := 0.95 |}
           (ValueError "需要至少100个历史数据点")).
  reflexivity.
Defined.

(** C8, as the code has it. No endpoint lets an engine error escape: each
    turns it into a response body carrying [str(e)].  [/fit] and [/forecast]
    answer [success = false] with the message in [error] and every result
    field empty or absent; [/anomaly] answers [success = false] with the
    message in [explanation] and its numeric fields at 0; [/compare] answers
    with the one-key object [{"error": str(e)}], which has no [success]
    key. *)
Theorem endpoint_failure_bodies {backend : Backend}
    (fit_request : FitRequest.t) (anomaly_request : AnomalyRequest.t)
    (forecast_request : ForecastRequest.t) (series_id values : string) :
  (forall e,
     fit_garch_model (FitRequest.values fit_request)
       (FitRequest.p fit_request) (FitRequest.q fit_request)
       (FitRequest.dist fit_request) (FitRequest.mean_model fit_request)
     = inl e ->
     fit_model fit_request
     = {| FitResponse.success := false;
          FitResponse.series_id := FitRequest.series_id fit_request;
          FitResponse.model_spec := [];
          FitResponse.params := None;
          FitResponse.interpretation := None;
          FitResponse.conditional_volatility := [];
          FitResponse.volatility_regimes := None;
          FitResponse.aic := None;
          FitResponse.bic := None;
          FitResponse.error := Some (str e) |})
  /\ (forall e,
        detect_anomaly_with_garch
          (AnomalyRequest.current_value anomaly_request)
          (AnomalyRequest.historical_values anomaly_request)
          (AnomalyRequest.confidence_level anomaly_request) = inl e ->
        AnomalyResponse.success (detect_anomaly anomaly_request) = false
        /\ AnomalyResponse.explanation (detect_anomaly anomaly_request)
           = "检测失败: " +:+ str e
        /\ AnomalyResponse.z_score (detect_anomaly anomaly_request) = Num 0
        /\ AnomalyResponse.conditional_volatility
             (detect_anomaly anomaly_request) = 0
        /\ AnomalyResponse.value_at_risk_95
             (detect_anomaly anomaly_request) = 0)
  /\ (forall e,
        forecast_volatility_try forecast_request = inl e ->
        forecast_volatility forecast_request
        = {| ForecastResponse.success := false;
             ForecastResponse.volatility_forecast := [];
             ForecastResponse.annualized_volatility := [];
             ForecastResponse.variance_forecast := [];
             ForecastResponse.confidence_intervals := None;
             ForecastResponse.interpretation := None;
             ForecastResponse.error := Some (str e) |})
  /\ (forall e,
        compare_methods_try series_id values = inl e ->
        compare_methods series_id values = JObj [("error", JStr (str e))]
        /\ has_key "success" (compare_methods series_id values) = false).
Proof.
  repeat split; intros;
    unfold fit_model, detect_anomaly, forecast_volatility, compare_methods;
    rewrite_failure.
Qed.

(** C8, as stated, fails on [/compare]: a series too short for the anomaly
    scorer is answered with a body that has an [error] key and no [success]
    key. *)
Lemma compare_failure_without_success_flag :
  compare_methods_try (backend := sample_backend) "SOFR" "1,2,3"
  = inl (ValueError "需要至少100个历史数据点")
  /\ compare_methods (backend := sample_backend) "SOFR" "1,2,3"
     = JObj [("error", JStr "需要至少100个历史数据点")]
  /\ assoc "success" [("error", JStr "需要至少100个历史数据点")] = None.
Proof. repeat split. Qed.

(** ** The forecast endpoint *)

(** Nothing in [forecast_volatility] checks the number of returns: none of
    its failures is a data-sufficiency failure. *)
Lemma forecast_never_insufficient {backend : Backend}
    (request : ForecastRequest.t) (e : exn) :
  forecast_volatility_try request = inl e -> is_insufficient_data e = false.
Proof.
  unfold forecast_volatility_try. intros Hrun.
  apply bind_inl in Hrun as [Hfit | (a & _ & Hrun)].
  { eapply call_not_insufficient; eassumption. }
  apply bind_inl in Hrun as [Hfc | (vf & _ & Hrun)].
  { eapply call_not_insufficient; eassumption. }
  apply bind_inl in Hrun as [Hidx | (last_vol & _ & Hrun)].
  { eapply neg_index_not_insufficient; eassumption. }
  apply bind_inl in Hrun as [Hidx | (first_vol & _ & Hrun)];
    [| discriminate].
  unfold index, raise, ret in Hidx.
  destruct (_ !! _); [discriminate | injection Hidx as <-; reflexivity].
Qed.

(** C3, on the code. A series yielding fewer than 100 returns is not
    rejected by [/forecast]: the returns go to the estimator as they are,
    and when the estimator and its forecast succeed the endpoint answers
    [success = true] with that forecast. *)
Theorem forecast_short_series_not_rejected {backend : Backend}
    (request : ForecastRequest.t) (a : ArchResult.t) (v : R) (vf : list R) :
  (length (log_returns (ForecastRequest.values request)) < 100)%nat ->
  arch_fit (log_returns (ForecastRequest.values request)) "Constant" 1 1 "t"
  = inr a ->
  arch_forecast a (ForecastRequest.horizon request) = inr (v :: vf) ->
  ForecastResponse.success (forecast_volatility request) = true
  /\ ForecastResponse.variance_forecast (forecast_volatility request)
     = v :: vf
  /\ ForecastResponse.error (forecast_volatility request) = None.
Proof.
  intros _ Ha Hf. unfold forecast_volatility, forecast_volatility_try.
  rewrite Ha. simpl. rewrite Hf. simpl.
  destruct (last_is_Some (sqrt v :: np_sqrt vf)) as [_ Hlast].
  destruct Hlast as [last_vol Hlast]; [discriminate |].
  apply neg_index_last in Hlast. unfold np_sqrt in *. rewrite Hlast. simpl.
  repeat split.
Qed.

Lemma forecast_short_series_not_rejected_witness :
  ForecastResponse.success
    (forecast_volatility (backend := sample_backend)
       {| ForecastRequest.values := wave 51;
          ForecastRequest.horizon := 5 |}) = true
  /\ ForecastResponse.variance_forecast
       (forecast_volatility (backend := sample_backend)
          {| ForecastRequest.values := wave 51;
             ForecastRequest.horizon := 5 |}) = [4; 4; 4; 4; 4]
  /\ ForecastResponse.error
       (forecast_volatility (backend := sample_backend)
          {| ForecastRequest.values := wave 51;
             ForecastRequest.horizon := 5 |}) = None.
Proof.
  apply (forecast_short_series_not_rejected (backend := sample_backend)
           {| ForecastRequest.values := wave 51;
              ForecastRequest.horizon := 5 |}
           (sample_fit (log_returns (wave 51))) 4 [4; 4; 4; 4]).
  - rewrite length_log_returns. simpl. lia.
  - reflexivity.
  - reflexivity.
Defined.

(** ** Persistence *)

Lemma coeff_sum_S (family : string) (first count : nat)
    (params : gmap string R) :
  coeff_sum family first (S count) params
  = get params (coeff_name family first) 0
    + coeff_sum family (S first) count params.
Proof. reflexivity. Qed.

(** C2, on the code. The reported persistence is [alpha[1] + beta[1]]: of a
    model with [p] alpha and [q] beta coefficients it leaves out the
    coefficients of the lags 2 and above, and differs from the sum of all
    coefficients by exactly their sum. *)
Theorem fit_persistence_first_lags {backend : Backend}
    (values : list R) (p q : Z) (dist mean : string)
    (res : FitResult.t) (a : ArchResult.t) :
  fit_garch_model values p q dist mean = inr res ->
  arch_fit (log_returns values) mean p q dist = inr a ->
  (1 <= p)%Z ->
  (1 <= q)%Z ->
  Params.persistence (FitResult.params res)
  = get (ArchResult.params a) "alpha[1]" 0
    + get (ArchResult.params a) "beta[1]" 0
  /\ full_persistence (Z.to_nat p) (Z.to_nat q) (ArchResult.params a)
     = Params.persistence (FitResult.params res)
       + (coeff_sum "alpha" 2 (Z.to_nat p - 1) (ArchResult.params a)
          + coeff_sum "beta" 2 (Z.to_nat q - 1) (ArchResult.params a)).
Proof.
  intros Hfit Ha Hp Hq.
  apply fit_garch_model_inr in Hfit
    as (_ & a' & Ha' & _ & Halpha & Hbeta & Hpers).
  rewrite Ha in Ha'. injection Ha' as <-.
  rewrite Hpers, Halpha, Hbeta. split; [reflexivity |].
  unfold full_persistence.
  replace (Z.to_nat p) with (S (Z.to_nat p - 1)) at 1 by lia.
  replace (Z.to_nat q) with (S (Z.to_nat q - 1)) at 1 by lia.
  rewrite !coeff_sum_S.
  change (coeff_name "alpha" 1) with "alpha[1]".
  change (coeff_name "beta" 1) with "beta[1]".
  lra.
Qed.

Lemma fit_persistence_first_lags_witness :
  exists res,
    fit_garch_model (backend := sample_backend)
      sample_history 2 2 "t" "Constant" = inr res
    /\ Params.persistence (FitResult.params res) = 0.1 + 0.3
    /\ full_persistence 2 2 sample_params
       = Params.persistence (FitResult.params res) + (0.2 + 0.3)
    /\ Params.persistence (FitResult.params res)
       <> full_persistence 2 2 sample_params.
Proof.
  destruct (fit_garch_model_ok (backend := sample_backend)
              sample_history 2 2 "t" "Constant"
              (sample_fit (log_returns sample_history)) 2)
    as (res & Hres & _);
    [reflexivity | reflexivity | exact sample_history_fit_volatility |].
  exists res. split; [exact Hres |].
  destruct (fit_persistence_first_lags (backend := sample_backend)
              sample_history 2 2 "t" "Constant" res
              (sample_fit (log_returns sample_history)) Hres)
    as [Hpers Hfull]; [reflexivity | lia | lia |].
  assert (Hsum : full_persistence 2 2 sample_params
                 = Params.persistence (FitResult.params res) + (0.2 + 0.3)).
  { etransitivity; [exact Hfull |]. f_equal.
    change (0.2 + 0 + (0.3 + 0) = 0.2 + 0.3). lra. }
  split; [rewrite Hpers; reflexivity |].
  split; [exact Hsum |].
  rewrite Hsum. lra.
Defined.

(** * Further properties of the module *)

(** ** Splitting the query string *)

Lemma split_on_not_nil (c : ascii) (s : string) : split_on c s <> [].
Proof.
  destruct s as [| a s]; simpl; [discriminate |].
  destruct (Ascii.eqb a c); [discriminate |].
  destruct (split_on c s); discriminate.
Qed.

(** X18. [s.split(",")] loses nothing: joining the pieces with the separator
    gives the string back, no piece contains the separator, and there is
    always at least one piece (the empty string splits into one empty
    piece). *)
Theorem split_on_join (c : ascii) (s : string) :
  join_with c (split_on c s) = s
  /\ Forall (fun t => occurs c t = false) (split_on c s)
  /\ (1 <= length (split_on c s))%nat.
Proof.
  split; [| split].
  - induction s as [| a s IH]; [reflexivity |].
    simpl. destruct (Ascii.eqb_spec a c) as [-> | Hne].
    + pose proof (split_on_not_nil c s) as Hnil.
      simpl. destruct (split_on c s) as [| t rest]; [contradiction |].
      simpl in *. rewrite IH. reflexivity.
    + pose proof (split_on_not_nil c s) as Hnil.
      destruct (split_on c s) as [| t rest]; [contradiction |].
      destruct rest as [| u rest]; simpl in *; rewrite <- IH; reflexivity.
  - induction s as [| a s IH]; [repeat constructor |].
    simpl. destruct (Ascii.eqb a c) eqn:Hac.
    + constructor; [reflexivity | exact IH].
    + pose proof (split_on_not_nil c s) as Hnil.
      destruct (split_on c s) as [| t rest]; [contradiction |].
      inversion IH as [| ? ? Ht Hrest]; subst.
      constructor; [simpl; rewrite Hac; exact Ht | exact Hrest].
  - pose proof (split_on_not_nil c s) as Hnil.
    destruct (split_on c s); [contradiction | simpl; lia].
Qed.

(** ** The fit and its diagnostics *)

Section FitReport.

Context {backend : Backend}.

(** The diagnostics of a successful fit, field by field. *)
Lemma fit_garch_model_report (values : list R) (p q : Z) (dist mean : string)
    (res : FitResult.t) :
  fit_garch_model values p q dist mean = inr res ->
  exists a current,
    arch_fit (log_returns values) mean p q dist = inr a
    /\ last (ArchResult.conditional_volatility a) = Some current
    /\ FitResult.conditional_volatility res
       = ArchResult.conditional_volatility a
    /\ Params.half_life (FitResult.params res)
       = (if decide (Params.persistence (FitResult.params res) < 1)
          then Fin (ln 0.5 / ln (Params.persistence (FitResult.params res)))
          else Inf)
    /\ FitResult.volatility_regimes res
       = {| Regimes.low :=
              np_mean (ArchResult.conditional_volatility a)
              - np_std (ArchResult.conditional_volatility a);
            Regimes.high :=
              np_mean (ArchResult.conditional_volatility a)
              + np_std (ArchResult.conditional_volatility a);
            Regimes.current := current;
            Regimes.mean := np_mean (ArchResult.conditional_volatility a) |}.
Proof.
  unfold fit_garch_model.
  destruct (length (log_returns values) <? 100)%nat; [discriminate |].
  intros Hfit. apply bind_inr in Hfit as (a & Ha & Hrest).
  apply call_inr in Ha.
  apply bind_inr in Hrest as (current & Hcur & Hret).
  apply neg_index_last in Hcur. injection Hret as <-.
  exists a, current. simpl. auto.
Qed.

End FitReport.

Lemma ln_half_negative : ln 0.5 < 0.
Proof. rewrite <- ln_1. apply ln_increasing; lra. Qed.

Lemma sample_history_fit :
  exists res,
    fit_garch_model (backend := sample_backend)
      sample_history 1 1 "t" "Constant" = inr res
    /\ Params.persistence (FitResult.params res) = 0.1 + 0.3.
Proof.
  destruct (fit_garch_model_ok (backend := sample_backend)
              sample_history 1 1 "t" "Constant"
              (sample_fit (log_returns sample_history)) 2)
    as (res & Hres & _);
    [reflexivity | reflexivity | exact sample_history_fit_volatility |].
  exists res. split; [exact Hres |].
  apply fit_garch_model_inr in Hres
    as (_ & a & Ha & _ & Halpha & Hbeta & ->).
  injection Ha as <-. rewrite Halpha, Hbeta. reflexivity.
Qed.

(** X1. The half-life of a successful fit is [ln 0.5 / ln persistence] when
    the persistence is below 1 and infinite from 1 on; for a persistence
    strictly between 0 and 1 it is a positive number. *)
Theorem fit_half_life {backend : Backend}
    (values : list R) (p q : Z) (dist mean : string) (res : FitResult.t) :
  fit_garch_model values p q dist mean = inr res ->
  (Params.persistence (FitResult.params res) < 1 ->
   Params.half_life (FitResult.params res)
   = Fin (ln 0.5 / ln (Params.persistence (FitResult.params res))))
  /\ (1 <= Params.persistence (FitResult.params res) ->
      Params.half_life (FitResult.params res) = Inf)
  /\ (0 < Params.persistence (FitResult.params res) < 1 ->
      exists h, Params.half_life (FitResult.params res) = Fin h /\ 0 < h).
Proof.
  intros Hfit.
  apply fit_garch_model_report in Hfit as (a & cur & _ & _ & _ & Hhl & _).
  rewrite Hhl. clear Hhl.
  set (pers := Params.persistence (FitResult.params res)).
  repeat split.
  - intros Hlt. rewrite decide_True by assumption. reflexivity.
  - intros Hge. rewrite decide_False by lra. reflexivity.
  - intros [Hpos Hlt]. rewrite decide_True by assumption.
    eexists; split; [reflexivity |].
    assert (Hln : ln pers < 0)
      by (rewrite <- ln_1; apply ln_increasing; lra).
    pose proof ln_half_negative as Hhalf.
    replace (ln 0.5 / ln pers) with ((- ln 0.5) / (- ln pers))
      by (field; lra).
    apply Rdiv_lt_0_compat; lra.
Qed.

Lemma fit_half_life_witness :
  exists res h,
    fit_garch_model (backend := sample_backend)
      sample_history 1 1 "t" "Constant" = inr res
    /\ Params.half_life (FitResult.params res) = Fin h
    /\ 0 < h.
Proof.
  destruct sample_history_fit as (res & Hres & Hpers).
  destruct (fit_half_life (backend := sample_backend)
              sample_history 1 1 "t" "Constant" res Hres)
    as (_ & _ & Hpos).
  destruct Hpos as (h & Hh & Hlt); [rewrite Hpers; lra |].
  exists res, h. auto.
Defined.

(** X2. The volatility regimes of a successful fit are ordered,
    [low <= mean <= high], lie symmetrically around the mean at one standard
    deviation of the conditional volatilities, and [current] is the last
    conditional volatility. *)
Theorem fit_regime_bounds {backend : Backend}
    (values : list R) (p q : Z) (dist mean : string) (res : FitResult.t) :
  fit_garch_model values p q dist mean = inr res ->
  Regimes.low (FitResult.volatility_regimes res)
  <= Regimes.mean (FitResult.volatility_regimes res)
  <= Regimes.high (FitResult.volatility_regimes res)
  /\ Regimes.high (FitResult.volatility_regimes res)
     - Regimes.mean (FitResult.volatility_regimes res)
     = Regimes.mean (FitResult.volatility_regimes res)
       - Regimes.low (FitResult.volatility_regimes res)
  /\ Regimes.mean (FitResult.volatility_regimes res)
     = np_mean (FitResult.conditional_volatility res)
  /\ Regimes.high (FitResult.volatility_regimes res)
     - Regimes.mean (FitResult.volatility_regimes res)
     = np_std (FitResult.conditional_volatility res)
  /\ last (FitResult.conditional_volatility res)
     = Some (Regimes.current (FitResult.volatility_regimes res)).
Proof.
  intros Hfit.
  apply fit_garch_model_report in Hfit
    as (a & cur & _ & Hlast & Hvol & _ & Hreg).
  rewrite Hreg, Hvol. simpl.
  pose proof (sqrt_pos
    (np_mean (map (fun x =>
       (x - np_mean (ArchResult.conditional_volatility a))
       * (x - np_mean (ArchResult.conditional_volatility a)))
       (ArchResult.conditional_volatility a)))) as Hstd.
  fold (np_std (ArchResult.conditional_volatility a)) in Hstd.
  repeat split; try lra. exact Hlast.
Qed.

Lemma fit_regime_bounds_witness :
  exists res,
    fit_garch_model (backend := sample_backend)
      sample_history 1 1 "t" "Constant" = inr res
    /\ Regimes.low (FitResult.volatility_regimes res)
       <= Regimes.mean (FitResult.volatility_regimes res)
       <= Regimes.high (FitResult.volatility_regimes res).
Proof.
  destruct sample_history_fit as (res & Hres & _).
  exists res. split; [exact Hres |].
  apply (fit_regime_bounds (backend := sample_backend)
           sample_history 1 1 "t" "Constant" res Hres).
Defined.

(** ** The fit endpoint *)

(** X3. [/fit] answers [success = true] exactly when the series has at least
    101 levels and the estimator returns a fit with at least one conditional
    volatility; the [error] field is absent exactly on success. *)
Theorem fit_model_success_iff {backend : Backend} (request : FitRequest.t) :
  (FitResponse.success (fit_model request) = true
   <-> (101 <= length (FitRequest.values request))%nat
       /\ exists a,
            arch_fit (log_returns (FitRequest.values request))
              (FitRequest.mean_model request) (FitRequest.p request)
              (FitRequest.q request) (FitRequest.dist request) = inr a
            /\ ArchResult.conditional_volatility a <> [])
  /\ (FitResponse.success (fit_model request) = true
      <-> FitResponse.error (fit_model request) = None).
Proof.
  unfold fit_model.
  destruct (fit_garch_model _ _ _ _ _) as [e | res] eqn:Hfit; simpl.
  - split; [| split; discriminate].
    split; [discriminate |].
    intros (Hlen & a & Ha & Hvol).
    destruct (last (ArchResult.conditional_volatility a)) as [sigma |]
      eqn:Hlast; [| apply last_None in Hlast; contradiction].
    destruct (fit_garch_model_ok _ _ _ _ _ a sigma Hlen Ha Hlast)
      as (res & Hres & _).
    rewrite Hres in Hfit. discriminate.
  - split; [| split; reflexivity].
    split; [intros _ | reflexivity].
    apply fit_garch_model_report in Hfit as Hrep.
    destruct Hrep as (a & cur & Ha & Hlast & _).
    apply fit_garch_model_inr in Hfit as (Hlen & _).
    split; [exact Hlen |]. exists a. split; [exact Ha |].
    intros Hnil. rewrite Hnil in Hlast. discriminate.
Qed.

(** X4. A series of 100 levels or fewer, the empty one included, is answered
    by [/fit] with a failure whose message gives the number of returns
    counted, one fewer than the levels and 0 for an empty series; the
    estimator plays no part in the answer. *)
Theorem fit_model_short_series {backend : Backend} (request : FitRequest.t) :
  (length (FitRequest.values request) <= 100)%nat ->
  fit_model request
  = {| FitResponse.success := false;
       FitResponse.series_id := FitRequest.series_id request;
       FitResponse.model_spec := [];
       FitResponse.params := None;
       FitResponse.interpretation := None;
       FitResponse.conditional_volatility := [];
       FitResponse.volatility_regimes := None;
       FitResponse.aic := None;
       FitResponse.bic := None;
       FitResponse.error :=
         Some ("数据不足: 需要至少100个观测值，当前有"
               +:+ pretty (length (FitRequest.values request) - 1)%nat
               +:+ "个") |}.
Proof.
  intros Hlen. unfold fit_model, fit_garch_model.
  destruct (Nat.ltb_spec (length (log_returns (FitRequest.values request)))
              100) as [_ | Hge].
  - rewrite length_log_returns. reflexivity.
  - rewrite length_log_returns in Hge. lia.
Qed.

Lemma fit_model_short_series_witness :
  FitResponse.error
    (fit_model (backend := sample_backend)
       {| FitRequest.series_id := "SOFR";
          FitRequest.values := [];
          FitRequest.p := 1;
          FitRequest.q := 1;
          FitRequest.dist := "t";
          FitRequest.mean_model := "Constant" |})
  = Some "数据不足: 需要至少100个观测值，当前有0个".
Proof.
  rewrite (fit_model_short_series (backend := sample_backend)
             {| FitRequest.series_id := "SOFR";
                FitRequest.values := [];
                FitRequest.p := 1;
                FitRequest.q := 1;
                FitRequest.dist := "t";
                FitRequest.mean_model := "Constant" |});
    [reflexivity | simpl; lia].
Defined.

(** ** The anomaly endpoint *)

Lemma detect_anomaly_with_garch_echo {backend : Backend}
    (current : R) (history : list R) (level : R) (r : AnomalyResponse.t) :
  detect_anomaly_with_garch current history level = inr r ->
  AnomalyResponse.current_value r = current
  /\ AnomalyResponse.confidence_level r = level.
Proof.
  unfold detect_anomaly_with_garch.
  destruct (length history <? 100)%nat; [discriminate |].
  intros Hrun.
  apply bind_inr in Hrun as (res & _ & Hrun).
  apply bind_inr in Hrun as (sigma & _ & Hrun).
  apply bind_inr in Hrun as (prev & _ & Hrun).
  destruct (decide _); [| destruct (decide _)];
    injection Hrun as <-; split; reflexivity.
Qed.

(** X6. [/anomaly] answers [success = true] exactly when the history has at
    least 101 levels and the estimator returns a fit with at least one
    conditional volatility; succeeding or not, the response echoes the
    request's [current_value] and [confidence_level]. *)
Theorem detect_anomaly_success_iff {backend : Backend}
    (request : AnomalyRequest.t) :
  (AnomalyResponse.success (detect_anomaly request) = true
   <-> (101 <= length (AnomalyRequest.historical_values request))%nat
       /\ exists a,
            arch_fit (log_returns (AnomalyRequest.historical_values request))
              "Constant" 1 1 "t" = inr a
            /\ ArchResult.conditional_volatility a <> [])
  /\ AnomalyResponse.current_value (detect_anomaly request)
     = AnomalyRequest.current_value request
  /\ AnomalyResponse.confidence_level (detect_anomaly request)
     = AnomalyRequest.confidence_level request.
Proof.
  unfold detect_anomaly.
  destruct (detect_anomaly_with_garch _ _ _) as [e | r] eqn:Hrun; simpl.
  - split; [| split; reflexivity].
    split; [discriminate |].
    intros (Hlen & a & Ha & Hvol).
    destruct (last (ArchResult.conditional_volatility a)) as [sigma |]
      eqn:Hlast; [| apply last_None in Hlast; contradiction].
    destruct (detect_anomaly_with_garch_ok
                (AnomalyRequest.current_value request) _
                (AnomalyRequest.confidence_level request) a sigma
                Hlen Ha Hlast) as [r Hr].
    rewrite Hr in Hrun. discriminate.
  - split; [| apply (detect_anomaly_with_garch_echo _ _ _ _ Hrun)].
    apply detect_anomaly_with_garch_inr in Hrun
      as (a & sigma & prev & Hlen & Ha & Hlast & _ & _ & _ & _ & _ & _ & Hok).
    split; [intros _ | intros _; exact Hok].
    split; [exact Hlen |]. exists a. split; [exact Ha |].
    intros Hnil. rewrite Hnil in Hlast. discriminate.
Qed.

(** X7. The anomaly flag and the severity of a response agree, whatever the
    request: a raised flag comes with [success = true] and a severity other
    than "normal"; a "critical" severity raises the flag unless the score is
    nan; a nan score is reported as "critical" with the flag down; a
    severity other than "normal" is only reported on success; and the
    severity is one of the three labels. *)
Theorem detect_anomaly_flag_consistent {backend : Backend}
    (request : AnomalyRequest.t) :
  (AnomalyResponse.is_anomaly (detect_anomaly request) = true ->
   AnomalyResponse.success (detect_anomaly request) = true
   /\ AnomalyResponse.severity (detect_anomaly request) <> "normal")
  /\ (AnomalyResponse.severity (detect_anomaly request) = "critical" ->
      AnomalyResponse.is_anomaly (detect_anomaly request) = true
      \/ AnomalyResponse.z_score (detect_anomaly request) = NaN)
  /\ (AnomalyResponse.z_score (detect_anomaly request) = NaN ->
      AnomalyResponse.severity (detect_anomaly request) = "critical"
      /\ AnomalyResponse.is_anomaly (detect_anomaly request) = false)
  /\ (AnomalyResponse.severity (detect_anomaly request) <> "normal" ->
      AnomalyResponse.success (detect_anomaly request) = true)
  /\ (AnomalyResponse.severity (detect_anomaly request) = "normal"
      \/ AnomalyResponse.severity (detect_anomaly request) = "warning"
      \/ AnomalyResponse.severity (detect_anomaly request) = "critical").
Proof.
  unfold detect_anomaly.
  destruct (detect_anomaly_with_garch _ _ _) as [e | r] eqn:Hrun; simpl.
  - repeat split; try discriminate; try congruence. left; reflexivity.
  - apply detect_anomaly_with_garch_inr in Hrun
      as (a & sigma & prev & _ & _ & _ & _ & _ & _ & _ & Hsev & Han & Hok).
    rewrite Hsev, Han, Hok. clear Hsev Han Hok.
    rewrite bool_decide_eq_true. unfold fgt.
    destruct (AnomalyResponse.z_score r) as [z | | |]; simpl.
    + destruct (decide (Rabs z < 2));
        [| destruct (decide (Rabs z < 3))];
        repeat split; intros; try discriminate; try lra; auto.
    + repeat split; intros; try discriminate; auto.
    + repeat split; intros; try discriminate; auto.
    + repeat split; intros; try discriminate; try tauto; auto.
Qed.

(** X8. The reported value at risk is never negative, on success and on
    failure alike. *)
Theorem detect_anomaly_value_at_risk_nonneg {backend : Backend}
    (request : AnomalyRequest.t) :
  0 <= AnomalyResponse.value_at_risk_95 (detect_anomaly request).
Proof.
  unfold detect_anomaly.
  destruct (detect_anomaly_with_garch _ _ _) as [e | r] eqn:Hrun; simpl.
  - lra.
  - apply detect_anomaly_with_garch_inr in Hrun
      as (a & sigma & prev & _ & _ & _ & _ & _ & _ & -> & _).
    apply Rabs_pos.
Qed.

(** X9. The conditional volatility and the value at risk of a score depend
    on the history and the confidence level only: scoring another current
    value against the same history succeeds as well and reports the same
    two numbers. *)
Theorem detect_anomaly_risk_ignores_current {backend : Backend}
    (current other : R) (history : list R) (level : R)
    (r : AnomalyResponse.t) :
  detect_anomaly_with_garch current history level = inr r ->
  exists r',
    detect_anomaly_with_garch other history level = inr r'
    /\ AnomalyResponse.conditional_volatility r'
       = AnomalyResponse.conditional_volatility r
    /\ AnomalyResponse.value_at_risk_95 r'
       = AnomalyResponse.value_at_risk_95 r.
Proof.
  intros Hrun.
  apply detect_anomaly_with_garch_inr in Hrun
    as (a & sigma & prev & Hlen & Ha & Hlast & _ & _ & Hvol & Hvar & _).
  destruct (detect_anomaly_with_garch_ok other history level a sigma
              Hlen Ha Hlast) as [r' Hr'].
  exists r'. split; [exact Hr' |].
  apply detect_anomaly_with_garch_inr in Hr'
    as (a' & sigma' & prev' & _ & Ha' & Hlast' & _ & _ & Hvol' & Hvar' & _).
  rewrite Ha in Ha'. injection Ha' as <-.
  rewrite Hlast in Hlast'. injection Hlast' as <-.
  rewrite Hvol, Hvol', Hvar, Hvar'. auto.
Qed.

Lemma detect_anomaly_risk_ignores_current_witness :
  exists r r',
    detect_anomaly_with_garch (backend := sample_backend)
      6 sample_history 0.95 = inr r
    /\ detect_anomaly_with_garch (backend := sample_backend)
         5 sample_history 0.95 = inr r'
    /\ AnomalyResponse.conditional_volatility r'
       = AnomalyResponse.conditional_volatility r
    /\ AnomalyResponse.value_at_risk_95 r'
       = AnomalyResponse.value_at_risk_95 r.
Proof.
  destruct (sample_history_scored 6 0.95) as (r & Hr & _).
  destruct (detect_anomaly_risk_ignores_current (backend := sample_backend)
              6 5 sample_history 0.95 r Hr) as (r' & Hr' & Hvol & Hvar).
  exists r, r'. auto.
Defined.

(** ** The forecast endpoint, continued *)

Lemma zip_with_map_r {A B C : Type} (f : A -> B -> C) (g : A -> B)
    (l : list A) :
  zip_with f l (map g l) = map (fun x => f x (g x)) l.
Proof. induction l as [| x l IH]; simpl; [| rewrite IH]; reflexivity. Qed.

Section ForecastFacts.

Context {backend : Backend}.

(** What a successful run of the [try] block went through and what it
    returns. *)
Lemma forecast_volatility_try_inr (request : ForecastRequest.t)
    (response : ForecastResponse.t) :
  forecast_volatility_try request = inr response ->
  exists a vf,
    arch_fit (log_returns (ForecastRequest.values request))
      "Constant" 1 1 "t" = inr a
    /\ arch_forecast a (ForecastRequest.horizon request) = inr vf
    /\ vf <> []
    /\ ForecastResponse.success response = true
    /\ ForecastResponse.error response = None
    /\ ForecastResponse.variance_forecast response = vf
    /\ ForecastResponse.volatility_forecast response = map sqrt vf
    /\ ForecastResponse.annualized_volatility response
       = map (fun x => sqrt x * sqrt 252) vf
    /\ ForecastResponse.confidence_intervals response
       = Some
           {| Intervals.lower :=
                map (fun x =>
                       sqrt x
                       - 1.96
                         * (sqrt x
                            / sqrt (INR (length
                                (log_returns
                                   (ForecastRequest.values request))))))
                    vf;
              Intervals.upper :=
                map (fun x =>
                       sqrt x
                       + 1.96
                         * (sqrt x
                            / sqrt (INR (length
                                (log_returns
                                   (ForecastRequest.values request))))))
                    vf |}.
Proof.
  unfold forecast_volatility_try. intros Hrun.
  apply bind_inr in Hrun as (a & Ha & Hrun). apply call_inr in Ha.
  apply bind_inr in Hrun as (vf & Hvf & Hrun). apply call_inr in Hvf.
  apply bind_inr in Hrun as (last_vol & Hlast & Hrun).
  apply bind_inr in Hrun as (first_vol & _ & Hrun).
  injection Hrun as <-. exists a, vf. simpl.
  do 2 (split; [assumption |]).
  split.
  { intros ->. discriminate Hlast. }
  do 4 (split; [reflexivity |]).
  unfold np_sqrt. rewrite !zip_with_map_r, !map_map.
  split; reflexivity.
Qed.

Lemma forecast_volatility_try_ok (request : ForecastRequest.t)
    (a : ArchResult.t) (vf : list R) :
  arch_fit (log_returns (ForecastRequest.values request))
    "Constant" 1 1 "t" = inr a ->
  arch_forecast a (ForecastRequest.horizon request) = inr vf ->
  vf <> [] ->
  exists response, forecast_volatility_try request = inr response.
Proof.
  intros Ha Hvf Hne. unfold forecast_volatility_try.
  rewrite Ha. simpl. rewrite Hvf. simpl.
  destruct vf as [| v vf]; [contradiction |].
  destruct (last_is_Some (np_sqrt (v :: vf))) as [_ Hlast].
  destruct Hlast as [last_vol Hlast]; [discriminate |].
  apply neg_index_last in Hlast. rewrite Hlast. simpl.
  eexists; reflexivity.
Qed.

End ForecastFacts.

(** X11. [/forecast] answers [success = true] exactly when the estimator
    returns a fit and the forecast of that fit is not empty, whatever the
    length of the series; the [error] field is absent exactly on success. *)
Theorem forecast_volatility_success_iff {backend : Backend}
    (request : ForecastRequest.t) :
  (ForecastResponse.success (forecast_volatility request) = true
   <-> exists a vf,
         arch_fit (log_returns (ForecastRequest.values request))
           "Constant" 1 1 "t" = inr a
         /\ arch_forecast a (ForecastRequest.horizon request) = inr vf
         /\ vf <> [])
  /\ (ForecastResponse.success (forecast_volatility request) = true
      <-> ForecastResponse.error (forecast_volatility request) = None).
Proof.
  unfold forecast_volatility.
  destruct (forecast_volatility_try request) as [e | response] eqn:Hrun;
    simpl.
  - split; [| split; discriminate].
    split; [discriminate |].
    intros (a & vf & Ha & Hvf & Hne).
    destruct (forecast_volatility_try_ok request a vf Ha Hvf Hne)
      as [response Hresp].
    rewrite Hresp in Hrun. discriminate.
  - apply forecast_volatility_try_inr in Hrun
      as (a & vf & Ha & Hvf & Hne & -> & -> & _).
    split; [| split; reflexivity].
    split; [intros _ | reflexivity].
    exists a, vf. auto.
Qed.

(** X12. On success [/forecast] returns, for every step of the variance
    forecast, the volatility [sqrt variance], the annualized volatility
    [sqrt variance * sqrt 252] and a confidence band
    [volatility -/+ 1.96 * volatility / sqrt n], [n] the number of returns;
    the five lists have the same length and, for a series of at least two
    levels, the band contains the volatility. *)
Theorem forecast_volatility_shape {backend : Backend}
    (request : ForecastRequest.t) (response : ForecastResponse.t) :
  forecast_volatility_try request = inr response ->
  (2 <= length (ForecastRequest.values request))%nat ->
  exists band,
    ForecastResponse.confidence_intervals response = Some band
    /\ length (ForecastResponse.volatility_forecast response)
       = length (ForecastResponse.variance_forecast response)
    /\ length (ForecastResponse.annualized_volatility response)
       = length (ForecastResponse.variance_forecast response)
    /\ length (Intervals.lower band)
       = length (ForecastResponse.variance_forecast response)
    /\ length (Intervals.upper band)
       = length (ForecastResponse.variance_forecast response)
    /\ forall h x,
         ForecastResponse.variance_forecast response !! h = Some x ->
         ForecastResponse.volatility_forecast response !! h = Some (sqrt x)
         /\ ForecastResponse.annualized_volatility response !! h
            = Some (sqrt x * sqrt 252)
         /\ exists lo up,
              Intervals.lower band !! h = Some lo
              /\ Intervals.upper band !! h = Some up
              /\ lo = sqrt x
                      - 1.96
                        * (sqrt x
                           / sqrt (INR (length
                               (ForecastRequest.values request) - 1)))
              /\ up - sqrt x = sqrt x - lo
              /\ lo <= sqrt x <= up.
Proof.
  intros Hrun Hlen.
  apply forecast_volatility_try_inr in Hrun
    as (a & vf & _ & _ & _ & _ & _ & -> & -> & -> & ->).
  eexists; split; [reflexivity |]. simpl.
  rewrite !length_map. do 4 (split; [reflexivity |]).
  intros h x Hx. rewrite !list_lookup_fmap, Hx. simpl.
  do 2 (split; [reflexivity |]).
  rewrite length_log_returns, minus_INR by lia. simpl INR.
  do 2 eexists. do 3 (split; [reflexivity |]).
  assert (Hn : 0 < sqrt (INR (length (ForecastRequest.values request)) - 1)).
  { apply sqrt_lt_R0.
    assert (2 <= INR (length (ForecastRequest.values request)))
      by (change 2 with (INR 2); apply le_INR; exact Hlen).
    lra. }
  assert (Herr : 0 <= sqrt x
                      / sqrt (INR (length (ForecastRequest.values request))
                              - 1)).
  { apply Rmult_le_pos; [apply sqrt_pos |].
    left. apply Rinv_0_lt_compat. exact Hn. }
  split; [lra |]. lra.
Qed.

Lemma forecast_volatility_shape_witness :
  exists response band,
    forecast_volatility_try (backend := sample_backend)
      {| ForecastRequest.values := sample_history;
         ForecastRequest.horizon := 5 |} = inr response
    /\ ForecastResponse.confidence_intervals response = Some band
    /\ length (ForecastResponse.volatility_forecast response)
       = length (ForecastResponse.variance_forecast response)
    /\ length (Intervals.lower band)
       = length (ForecastResponse.variance_forecast response).
Proof.
  destruct (forecast_volatility_try_ok (backend := sample_backend)
              {| ForecastRequest.values := sample_history;
                 ForecastRequest.horizon := 5 |}
              (sample_fit (log_returns sample_history)) [4; 4; 4; 4; 4])
    as [response Hresp]; [reflexivity | reflexivity | discriminate |].
  destruct (forecast_volatility_shape (backend := sample_backend)
              {| ForecastRequest.values := sample_history;
                 ForecastRequest.horizon := 5 |} response Hresp)
    as (band & Hband & Hvol & _ & Hlo & _); [simpl; lia |].
  exists response, band. auto.
Defined.

(** ** An estimator that raises *)

(** X14. When the estimator raises, its message reaches the caller
    unchanged: in [error] for [/fit] and [/forecast], after the prefix of
    [explanation] for [/anomaly].  For [/fit] and [/anomaly] this takes a
    series of at least 101 levels (a shorter one is rejected before the
    estimator is called); [/forecast] passes on every series. *)
Theorem estimator_failure_reported {backend : Backend}
    (fit_request : FitRequest.t) (anomaly_request : AnomalyRequest.t)
    (forecast_request : ForecastRequest.t) (msg : string) :
  ((101 <= length (FitRequest.values fit_request))%nat ->
   arch_fit (log_returns (FitRequest.values fit_request))
     (FitRequest.mean_model fit_request) (FitRequest.p fit_request)
     (FitRequest.q fit_request) (FitRequest.dist fit_request) = inl msg ->
   FitResponse.success (fit_model fit_request) = false
   /\ FitResponse.error (fit_model fit_request) = Some msg)
  /\ ((101 <= length (AnomalyRequest.historical_values anomaly_request))%nat ->
      arch_fit (log_returns (AnomalyRequest.historical_values anomaly_request))
        "Constant" 1 1 "t" = inl msg ->
      AnomalyResponse.success (detect_anomaly anomaly_request) = false
      /\ AnomalyResponse.explanation (detect_anomaly anomaly_request)
         = "检测失败: " +:+ msg)
  /\ (arch_fit (log_returns (ForecastRequest.values forecast_request))
        "Constant" 1 1 "t" = inl msg ->
      ForecastResponse.success (forecast_volatility forecast_request) = false
      /\ ForecastResponse.error (forecast_volatility forecast_request)
         = Some msg).
Proof.
  assert (Hfit : forall values p q dist mean,
             (101 <= length values)%nat ->
             arch_fit (log_returns values) mean p q dist = inl msg ->
             fit_garch_model values p q dist mean = inl (ExternalError msg)).
  { intros values p q dist mean Hlen Ha. unfold fit_garch_model.
    destruct (Nat.ltb_spec (length (log_returns values)) 100) as [Hlt | _].
    { rewrite length_log_returns in Hlt. lia. }
    rewrite Ha. reflexivity. }
  split; [| split].
  - intros Hlen Ha. unfold fit_model.
    rewrite (Hfit _ _ _ _ _ Hlen Ha). split; reflexivity.
  - intros Hlen Ha. unfold detect_anomaly, detect_anomaly_with_garch.
    destruct (Nat.ltb_spec
                (length (AnomalyRequest.historical_values anomaly_request))
                100) as [Hlt | _]; [lia |].
    rewrite (Hfit _ _ _ _ _ Hlen Ha). split; reflexivity.
  - intros Ha. unfold forecast_volatility, forecast_volatility_try.
    rewrite Ha. split; reflexivity.
Qed.

Lemma estimator_failure_reported_witness :
  AnomalyResponse.explanation
    (detect_anomaly (backend := failing_backend "optimizer failed")
       {| AnomalyRequest.current_value := 6;
          AnomalyRequest.historical_values := sample_history;
          AnomalyRequest.confidence_level := 0.95 |})
  = "检测失败: optimizer failed".
Proof.
  destruct (estimator_failure_reported
              (backend := failing_backend "optimizer failed")
              {| FitRequest.series_id := "SOFR";
                 FitRequest.values := sample_history;
                 FitRequest.p := 1;
                 FitRequest.q := 1;
                 FitRequest.dist := "t";
                 FitRequest.mean_model := "Constant" |}
              {| AnomalyRequest.current_value := 6;
                 AnomalyRequest.historical_values := sample_history;
                 AnomalyRequest.confidence_level := 0.95 |}
              {| ForecastRequest.values := sample_history;
                 ForecastRequest.horizon := 5 |}
              "optimizer failed") as (_ & Hanomaly & _).
  destruct Hanomaly as [_ Hmsg]; [simpl; lia | reflexivity |].
  exact Hmsg.
Defined.

(** ** The comparison endpoint *)

Lemma mapM_length {A B : Type} (f : A -> result B) (l : list A)
    (bs : list B) :
  mapM f l = inr bs -> length bs = length l.
Proof.
  revert bs; induction l as [| a l IH]; intros bs; simpl.
  - intros [= <-]. reflexivity.
  - intros Hrun. apply bind_inr in Hrun as (b & _ & Hrun).
    apply bind_inr in Hrun as (bs' & Hbs & Hrun).
    injection Hrun as <-. simpl. rewrite (IH bs' Hbs). reflexivity.
Qed.

(** X15. The body [/compare] returns has an [error] key exactly when the
    comparison failed; a successful body has the keys [series_id],
    [current_value], [methods] and [comparison]; no body, successful or
    not, has a [success] key. *)
Theorem compare_methods_keys {backend : Backend} (series_id values : string) :
  (has_key "error" (compare_methods series_id values) = true
   <-> exists e, compare_methods_try series_id values = inl e)
  /\ has_key "success" (compare_methods series_id values) = false
  /\ (has_key "error" (compare_methods series_id values) = false ->
      has_key "series_id" (compare_methods series_id values) = true
      /\ has_key "current_value" (compare_methods series_id values) = true
      /\ has_key "methods" (compare_methods series_id values) = true
      /\ has_key "comparison" (compare_methods series_id values) = true).
Proof.
  unfold compare_methods.
  destruct (compare_methods_try series_id values) as [e | body] eqn:Hrun.
  - split; [split; [eauto | reflexivity] |].
    split; [reflexivity | discriminate].
  - unfold compare_methods_try in Hrun.
    apply bind_inr in Hrun as (vals & _ & Hrun).
    apply bind_inr in Hrun as (current & _ & Hrun).
    apply bind_inr in Hrun as (r & _ & Hrun).
    injection Hrun as <-.
    split; [split; [discriminate | intros [e He]; discriminate] |].
    split; [reflexivity |]. intros _. repeat split.
Qed.

(** X16. [/compare] needs at least 102 comma-separated values: the last one
    is the current value and the 101 before it the history.  A query with
    101 pieces or fewer is always answered with an error body, and when all
    its pieces are numbers the error is the data-sufficiency failure. *)
Theorem compare_methods_short_query {backend : Backend}
    (series_id values : string) :
  (length (split_on "," values) <= 101)%nat ->
  exists e,
    compare_methods_try series_id values = inl e
    /\ compare_methods series_id values = JObj [("error", JStr (str e))]
    /\ ((exists vals,
           mapM (fun v => call (py_float v)) (split_on "," values) = inr vals)
        -> is_insufficient_data e = true).
Proof.
  intros Hlen.
  assert (Hgoal : exists e,
             compare_methods_try series_id values = inl e
             /\ ((exists vals,
                    mapM (fun v => call (py_float v)) (split_on "," values)
                    = inr vals)
                 -> is_insufficient_data e = true)).
  { unfold compare_methods_try.
    destruct (mapM _ (split_on "," values)) as [e | vals] eqn:Hparse.
    { exists e. split; [reflexivity |]. intros [vals Hvals]. discriminate. }
    pose proof (mapM_length _ _ _ Hparse) as Hvals.
    pose proof (split_on_not_nil "," values) as Hne.
    destruct (last_is_Some vals) as [_ Hlast].
    destruct Hlast as [current Hlast].
    { intros ->. destruct (split_on "," values); [contradiction |].
      discriminate. }
    apply neg_index_last in Hlast. simpl. rewrite Hlast. simpl.
    destruct (detect_anomaly_with_garch_short current
                (take (length vals - 1) vals) 0.95) as [msg Hmsg].
    { rewrite length_take. lia. }
    rewrite Hmsg. exists (ValueError msg). split; reflexivity. }
  destruct Hgoal as (e & He & Hins).
  exists e. split; [exact He |]. split; [| exact Hins].
  unfold compare_methods. rewrite He. reflexivity.
Qed.

Lemma compare_methods_short_query_witness :
  exists e,
    compare_methods_try (backend := sample_backend) "SOFR" "1,2,3" = inl e
    /\ compare_methods (backend := sample_backend) "SOFR" "1,2,3"
       = JObj [("error", JStr (str e))]
    /\ is_insufficient_data e = true.
Proof.
  destruct (compare_methods_short_query (backend := sample_backend)
              "SOFR" "1,2,3") as (e & He & Hbody & Hins); [simpl; lia |].
  exists e. split; [exact He |]. split; [exact Hbody |].
  apply Hins. eexists; reflexivity.
Defined.

Lemma mapM_first_failure {A B : Type} (f : A -> result B)
    (pre post : list A) (t : A) (e : exn) :
  Forall (fun a => exists b, f a = inr b) pre ->
  f t = inl e ->
  mapM f (pre ++ t :: post) = inl e.
Proof.
  intros Hpre Ht. induction Hpre as [| a pre [b Hb] _ IH]; simpl.
  - rewrite Ht. reflexivity.
  - rewrite Hb. simpl. rewrite IH. reflexivity.
Qed.

(** X17. The values of a [/compare] query are converted from left to right
    and the first piece that is not a number ends the comparison: the body
    is [{"error": message}] with the message [float] raised on that piece,
    whatever follows it. *)
Theorem compare_methods_parse_failure {backend : Backend}
    (series_id values : string) (pre post : list string) (t msg : string) :
  split_on "," values = pre ++ t :: post ->
  Forall (fun piece => exists x, py_float piece = inr x) pre ->
  py_float t = inl msg ->
  compare_methods series_id values = JObj [("error", JStr msg)].
Proof.
  intros Hsplit Hpre Ht.
  unfold compare_methods, compare_methods_try. rewrite Hsplit.
  rewrite (mapM_first_failure _ pre post t (ExternalError msg)).
  - reflexivity.
  - eapply Forall_impl; [exact Hpre |].
    intros piece [x Hx]. exists x. simpl. rewrite Hx. reflexivity.
  - simpl. rewrite Ht. reflexivity.
Qed.

Lemma compare_methods_parse_failure_witness :
  compare_methods (backend := sample_backend) "SOFR" "1,abc,3"
  = JObj [("error", JStr "could not convert string to float")].
Proof.
  apply (compare_methods_parse_failure (backend := sample_backend)
           "SOFR" "1,abc,3" ["1"%string] ["3"%string] "abc"
           "could not convert string to float").
  - reflexivity.
  - repeat constructor. exists 1. reflexivity.
  - reflexivity.
Defined.
